(** * MVG (Minimum Viable Guide), system core: a shallow embedding

    The pipeline of [mvg_system_core.py] -- intent analysis, capability
    assessment, ethical evaluation, response design and the orchestrator
    with its per-user memory table -- written as Rocq functions, followed
    by the properties of the specification that are stated about it.

    Conventions.
    - A Python [str] is a [string]; each character stands for the code
      point of the same number, so the texts covered are those of code
      points below 256.  [Py] gives the built-ins the source uses on them
      ([lower], [strip], [split], [in], [count], [join]) on that range.
    - A Python [int] is a [Z]; [//] is [Z.div] (both round to the floor).
    - The regular expressions of the source are values of [Re.regex];
      [Re.search] is [re.search(...) is not None].
    - A Python [dict] whose iteration order the code relies on is an
      association list in insertion order; the table of user memories,
      which is only read and written by key, is a [gmap].
    - An object that is mutated in place ([UserMemory]) is threaded
      through: a function that mutates it returns the new value. *)

From Stdlib Require Import ZArith List Bool Ascii String Lia.
From Stdlib Require Import Numbers.DecimalString Floats.SpecFloat.
From stdpp Require Import gmap strings.
Import ListNotations.

Local Open Scope string_scope.
Local Open Scope Z_scope.
Local Open Scope list_scope.

(* ================================================================= *)
(** ** Python built-ins on strings *)

Module Py.

Definition newline : string := String (ascii_of_N 10) EmptyString.

(** [unlines] writes a text of several lines as the list of its lines. *)
Fixpoint unlines (ls : list string) : string :=
  match ls with
  | [] => EmptyString
  | [l] => l
  | l :: ls' => l +:+ newline +:+ unlines ls'
  end.

(** [ch.isupper()] restricted to A-Z. *)
Definition is_ascii_upper (c : ascii) : bool :=
  let n := N_of_ascii c in ((65 <=? n) && (n <=? 90))%N.

(** [ch.lower()]: A-Z and the cased letters U+00C0-U+00DE (all but the
    multiplication sign U+00D7) move up by 32; the rest is unchanged. *)
Definition chr_lower (c : ascii) : ascii :=
  let n := N_of_ascii c in
  if (((65 <=? n) && (n <=? 90))
      || ((192 <=? n) && (n <=? 222) && negb (n =? 215)))%N
  then ascii_of_N (n + 32) else c.

(** [s.lower()] *)
Fixpoint lower (s : string) : string :=
  match s with
  | EmptyString => EmptyString
  | String c s' => String (chr_lower c) (lower s')
  end.

(** [ch.isspace()], which is also what [\s] matches in a [str] pattern:
    TAB LF VT FF CR, the separators U+001C-U+001F, the space, NEL
    (U+0085) and the no-break space (U+00A0). *)
Definition isspace (c : ascii) : bool :=
  let n := N_of_ascii c in
  (((9 <=? n) && (n <=? 13)) || ((28 <=? n) && (n <=? 32))
   || (n =? 133) || (n =? 160))%N.

(** [s.startswith(p)] *)
Fixpoint startswith (p s : string) : bool :=
  match p, s with
  | EmptyString, _ => true
  | String a p', String b s' => Ascii.eqb a b && startswith p' s'
  | String _ _, EmptyString => false
  end.

(** [sub in s] *)
Fixpoint contains (sub s : string) : bool :=
  startswith sub s
  || match s with
     | EmptyString => false
     | String _ s' => contains sub s'
     end.

(** [s.count(ch)] for a pattern of one character. *)
Fixpoint count_char (ch : ascii) (s : string) : Z :=
  match s with
  | EmptyString => 0
  | String c s' => (if Ascii.eqb c ch then 1 else 0) + count_char ch s'
  end.

(** [s.lstrip()], [s.strip()] *)
Fixpoint lstrip (s : string) : string :=
  match s with
  | String c s' => if isspace c then lstrip s' else s
  | EmptyString => EmptyString
  end.

Definition strip (s : string) : string :=
  String.rev (lstrip (String.rev (lstrip s))).

(** [s.split()]: the maximal runs of characters that are not white
    space.  [split_from w s] reads [s] with [w] the run read so far,
    kept in reverse. *)
Fixpoint split_from (w : string) (s : string) : list string :=
  match s with
  | EmptyString =>
      match w with EmptyString => [] | _ => [String.rev w] end
  | String c s' =>
      if isspace c
      then match w with
           | EmptyString => split_from EmptyString s'
           | _ => String.rev w :: split_from EmptyString s'
           end
      else split_from (String c w) s'
  end.

Definition split (s : string) : list string := split_from EmptyString s.

(** [sep.join(ls)] *)
Fixpoint join (sep : string) (ls : list string) : string :=
  match ls with
  | [] => EmptyString
  | [l] => l
  | l :: ls' => l +:+ sep +:+ join sep ls'
  end.

(** [x or d] for an optional string [x]: [None] and the empty string are
    false, and then the value is [d]. *)
Definition or_else (x : option string) (d : string) : string :=
  match x with
  | Some (String c s) => String c s
  | Some EmptyString | None => d
  end.

(** [x in ls] for a list of strings *)
Definition mem (x : string) (ls : list string) : bool :=
  existsb (String.eqb x) ls.

(** [any(w in s for w in ws)] *)
Definition any_in (ws : list string) (s : string) : bool :=
  existsb (fun w => contains w s) ws.

(** [str(n)], as an f-string prints an int. *)
Definition str_of_int (n : Z) : string :=
  NilZero.string_of_int (Z.to_int n).

(** [ls[-k:]] for k > 0: the last [k] items, all of them when there are
    fewer. *)
Definition last_n {A} (k : nat) (ls : list A) : list A :=
  skipn (length ls - k)%nat ls.

(** *** Binary64 arithmetic, as far as [n * 0.6] and [k > x] need it *)

Definition float : Type := spec_float.

(** [float(n)]: the nearest binary64, ties to even.  (Past the binary64
    range this is an infinity; CPython raises [OverflowError] there
    instead, from 2^1024 - 2^970 on, which no counter of requests
    reaches.) *)
Definition float_of_int (n : Z) : float := binary_normalize 53 1024 n 0 false.

(** The literal [0.6], i.e. 5404319552844595 * 2^-53. *)
Definition f0_6 : float := S754_finite false 5404319552844595 (-53).

Definition float_mul (x y : float) : float := SFmul 53 1024 x y.

(** [k > x] for an int [k] and a float [x]: Python compares the two
    values exactly. *)
Definition int_gt_float (k : Z) (x : float) : bool :=
  match x with
  | S754_zero _ => 0 <? k
  | S754_infinity s => s
  | S754_nan => false
  | S754_finite s m e =>
      let v := if s then Z.neg m else Z.pos m in
      if 0 <=? e then v * 2 ^ e <? k else v <? k * 2 ^ (- e)
  end.

End Py.

(* ================================================================= *)
(** ** Regular expressions *)

(** The patterns of the source are built from three forms only: a group
    of alternative literal words [(w1|w2|...)], the white-space run [\s+],
    and concatenation. *)

Module Re.

Inductive regex : Type :=
| Words (ws : list string)      (* (w1|w2|...) *)
| Spaces1                       (* \s+ *)
| Cat (r1 r2 : regex).          (* r1 r2 *)

(** A literal matched at the head of [s]: what is left of [s] after it.
    Under [re.IGNORECASE] ([ic]) a character of the text matches a
    character of the pattern when their lower-case forms agree. *)
Fixpoint literal (ic : bool) (w s : string) : option string :=
  match w, s with
  | EmptyString, _ => Some s
  | String a w', String b s' =>
      if (if ic then Ascii.eqb (Py.chr_lower a) (Py.chr_lower b)
          else Ascii.eqb a b)
      then literal ic w' s' else None
  | String _ _, EmptyString => None
  end.

(** [\s+] at the head of [s]: what is left after one, two, ... white
    space characters. *)
Fixpoint spaces1 (s : string) : list string :=
  match s with
  | String c s' => if Py.isspace c then s' :: spaces1 s' else []
  | EmptyString => []
  end.

(** All the ways [r] matches at the head of [s], each given by what is
    left of [s]. *)
Fixpoint match_here (ic : bool) (r : regex) (s : string) : list string :=
  match r with
  | Words ws =>
      flat_map (fun w => match literal ic w s with
                         | Some rest => [rest]
                         | None => []
                         end) ws
  | Spaces1 => spaces1 s
  | Cat r1 r2 => flat_map (match_here ic r2) (match_here ic r1 s)
  end.

Definition matches_here (ic : bool) (r : regex) (s : string) : bool :=
  match match_here ic r s with [] => false | _ :: _ => true end.

(** [re.search(r, s) is not None]: [r] matches at some position of [s]. *)
Fixpoint search_flags (ic : bool) (r : regex) (s : string) : bool :=
  matches_here ic r s
  || match s with
     | EmptyString => false
     | String _ s' => search_flags ic r s'
     end.

Definition search (r : regex) (s : string) : bool := search_flags false r s.
Definition search_ignorecase (r : regex) (s : string) : bool :=
  search_flags true r s.

End Re.

(* ================================================================= *)
(** ** Part 1: data structures *)

Inductive CapabilityLevel : Type := BEGINNER | INTERMEDIATE | ADVANCED.

(** [level.value] *)
Definition level_value (l : CapabilityLevel) : string :=
  match l with
  | BEGINNER => "beginner"
  | INTERMEDIATE => "intermediate"
  | ADVANCED => "advanced"
  end.

Record Intent : Type := {
  surface_request : string;
  deep_need : string;
  underlying_motivation : string;
  ethical_flags : list string;
  growth_opportunity : string
}.

Record CapabilityAssessment : Type := {
  level : CapabilityLevel;
  score : Z;
  strengths : list string;
  weaknesses : list string;
  evidence : string
}.

Record EthicalVerdict : Type := {
  is_harmful : bool;
  is_manipulative : bool;
  creates_dependency : bool;
  violates_dignity : bool;
  concerns : list string;
  should_proceed : bool;
  redirect_suggestion : option string
}.

Record GrowthResponse : Type := {
  response_text : string;
  reasoning_log : string;
  capability_addressed : string;
  expected_outcome : string;
  follow_up_suggestions : list string;
  independence_score_impact : string
}.

(** A reading of [datetime.now()]. *)
Definition datetime : Type := Z.

(** One record of [conversation_context]. *)
Record ContextEntry : Type := {
  ctx_query : string;
  ctx_response : string;
  ctx_capability_level : string;
  ctx_capability_score : Z;
  ctx_timestamp : string
}.

Record UserMemory : Type := {
  user_id : string;
  interaction_count : Z;
  request_history : list string;
  capability_trend : list Z;
  topic_expertise : list (string * Z);
  learning_progress : list (string * string);
  last_interaction : option datetime;
  conversation_context : list ContextEntry
}.

(** [UserMemory(user_id=uid)] *)
Definition new_memory (uid : string) : UserMemory :=
  {| user_id := uid; interaction_count := 0; request_history := [];
     capability_trend := []; topic_expertise := []; learning_progress := [];
     last_interaction := None; conversation_context := [] |}.

(* ================================================================= *)
(** ** Part 2: intent analyzer *)

Module IntentAnalyzer.
Import Re.

(** [PATTERNS]; every entry is compiled with [re.IGNORECASE]. *)
Definition direct_solution : regex :=
  Cat (Words ["write"; "do"; "solve"; "complete"; "code"; "make"; "build";
              "create"])
      (Cat Spaces1 (Words ["my"; "the"; "this"; "your"])).
Definition lazy_seeking : regex :=
  Cat (Words ["just"; "quickly"; "fast"; "easy"; "simple"; "just"])
      (Cat Spaces1 (Words ["give"; "show"; "tell"])).
Definition genuine_learning : regex :=
  Words ["how"; "why"; "understand"; "learn"; "explain"; "teach"; "work";
         "process"].
Definition collaboration : regex :=
  Words ["together"; "help me"; "guide"; "feedback"; "review"; "improve"].
Definition verification : regex :=
  Words ["check"; "verify"; "right"; "correct"; "validate"; "confirm"].
Definition advanced_exploration : regex :=
  Words ["alternative"; "optimize"; "best"; "elegant"; "edge"; "consider";
         "deeper"].

Definition _extract_surface_request (query : string) : string :=
  let query_lower := Py.lower query in
  if search_ignorecase direct_solution query_lower then
    if search_ignorecase lazy_seeking query_lower
    then "Shortcut-seeking complete solution"
    else "Request for complete solution"
  else if search_ignorecase collaboration query_lower then
    "Collaborative learning request"
  else if search_ignorecase verification query_lower then
    "Verification/validation request"
  else if search_ignorecase advanced_exploration query_lower then
    "Advanced exploration request"
  else if search_ignorecase genuine_learning query_lower then
    "Request for understanding/learning"
  else "General inquiry".

Definition _infer_deep_need (query surface : string)
    (memory : option UserMemory) : string :=
  let query_lower := Py.lower query in
  let topics :=
    match memory with
    | Some m => map fst (learning_progress m)
    | None => []
    end in
  match List.find (fun topic => Py.contains (Py.lower topic) query_lower) topics with
  | Some topic => "Mastery in " +:+ topic
  | None =>
      if (Py.contains "homework" query_lower
          || Py.contains "assignment" query_lower
          || Py.contains "exam" query_lower)
         && (Py.contains "write" query_lower
             || Py.contains "solve" query_lower)
      then "Understanding the material deeply"
      else if Py.any_in ["business"; "startup"; "company"; "career"] query_lower
      then "Strategic thinking and confidence"
      else if Py.any_in ["life"; "decision"; "should i"; "advice"] query_lower
      then "Clarity, wisdom, and self-understanding"
      else if Py.any_in ["algorithm"; "code"; "debug"; "architecture"] query_lower
      then "Problem-solving mastery"
      else "Knowledge or skill development"
  end.

(** [urgency_patterns], tried in this order with [re.IGNORECASE]. *)
Definition time_pressure : regex :=
  Words ["urgent"; "deadline"; "tomorrow"; "tonight"; "asap"; "quickly";
         "fast"; "hurry"; "due"].
Definition fear_anxiety : regex :=
  Words ["afraid"; "worried"; "scared"; "don't know"; "lost"; "confused";
         "stuck"; "help"; "desperate"].
Definition laziness_seeking : regex :=
  Words ["just give"; "simply"; "quick"; "easy"; "shortcut"; "without";
         "don't want to"].
Definition genuine_curiosity : regex :=
  Words ["why"; "how"; "curious"; "wonder"; "interested";
         "want to understand"].

Definition _analyze_motivation (query deep_need : string) : string :=
  let query_lower := Py.lower query in
  if search_ignorecase time_pressure query_lower then
    "Time pressure / Procrastination"
  else if search_ignorecase fear_anxiety query_lower then
    "Fear of failure / Lack of confidence"
  else if search_ignorecase laziness_seeking query_lower then
    "Convenience seeking / Avoiding effort"
  else if search_ignorecase genuine_curiosity query_lower then
    "Intrinsic motivation / Growth mindset"
  else "Desire for growth and improvement".

Definition deception_patterns : regex :=
  Words ["fake"; "pretend"; "trick"; "manipulate"; "deceive"; "cheat";
         "fraud"; "dishonest"].
Definition harm_patterns : regex :=
  Words ["hurt"; "damage"; "attack"; "harm"; "destroy"; "sabotage";
         "harmful"].
Definition bias_patterns : regex :=
  Words ["racism"; "sexism"; "discriminat"; "bigot"; "hate"; "prejudice";
         "stereotype"].
Definition pressure_patterns : regex :=
  Words ["must do"; "force"; "pressure"; "coerce"; "blackmail"; "threaten"].

(** The test that appends "repetitive_dependency":
    [memory and len(memory.request_history) > 0 and
     query_lower in memory.request_history[-3:]]. *)
Definition asked_recently (query_lower : string)
    (memory : option UserMemory) : bool :=
  match memory with
  | Some m =>
      (0 <? Z.of_nat (length (request_history m)))
      && Py.mem query_lower (Py.last_n 3 (request_history m))
  | None => false
  end.

Definition _detect_ethical_flags (query surface : string)
    (memory : option UserMemory) : list string :=
  let query_lower := Py.lower query in
  (if Py.contains "complete solution" (Py.lower surface)
      || Py.contains "shortcut" (Py.lower surface)
   then ["potential_dependency_creation"] else [])
  ++ (if search deception_patterns query_lower
      then ["deception_intent"] else [])
  ++ (if search harm_patterns query_lower
      then ["potential_harm"] else [])
  ++ (if search bias_patterns query_lower
      then ["bias_or_discrimination"] else [])
  ++ (if search pressure_patterns query_lower
      then ["coercion_pressure"] else [])
  ++ (if asked_recently query_lower memory
      then ["repetitive_dependency"] else []).

Definition _identify_growth_opportunity (surface deep_need : string)
    (ethical_flags : list string) : string :=
  if Py.mem "potential_dependency_creation" ethical_flags then
    "Transform complete solution request into guided learning"
  else if String.eqb deep_need "Confidence and structured thinking" then
    "Build confidence through guided discovery"
  else if String.eqb deep_need "Clarity and self-understanding" then
    "Facilitate self-reflection and insight"
  else "Develop problem-solving capability".

Definition analyze (user_query : string) (memory : option UserMemory)
    : Intent :=
  let surface := _extract_surface_request user_query in
  let deep_need := _infer_deep_need user_query surface memory in
  let motivation := _analyze_motivation user_query deep_need in
  let ethical_flags := _detect_ethical_flags user_query surface memory in
  let growth_opp :=
    _identify_growth_opportunity surface deep_need ethical_flags in
  {| surface_request := surface;
     deep_need := deep_need;
     underlying_motivation := motivation;
     ethical_flags := ethical_flags;
     growth_opportunity := growth_opp |}.

End IntentAnalyzer.

(* ================================================================= *)
(** ** Part 3: capability assessor *)

Module CapabilityAssessor.
Import Re.

(** [COMPETENCY_KEYWORDS] *)
Definition analysis_keywords : list string :=
  ["analyze"; "examine"; "breakdown"; "decompose"; "understand why"].
Definition application_keywords : list string :=
  ["implement"; "apply"; "use"; "create"; "build"].
Definition synthesis_keywords : list string :=
  ["combine"; "integrate"; "design"; "solve"; "optimize"].
Definition metacognition_keywords : list string :=
  ["how do i learn"; "my approach"; "my method"; "i've tried"].

Definition _assess_reasoning_quality (query : string) : Z :=
  let query_lower := Py.lower query in
  let score := 10 in
  let score :=
    if search (Words ["because"; "however"; "although"; "consider";
                      "analyze"; "depends on"; "factors"]) query_lower
    then score + 15 else score in
  let score :=
    if search (Words ["on the one hand"; "alternatively"; "versus";
                      "compared to"; "trade-off"]) query_lower
    then score + 5 else score in
  let score :=
    if search (Words ["don't understand"; "confused"; "lost"; "no idea"])
              query_lower
    then score - 5 else score in
  Z.max 0 (Z.min 30 score).

Definition _assess_self_awareness (query : string) : Z :=
  let query_lower := Py.lower query in
  let score := 10 in
  let score :=
    if search (Words ["i don't"; "i can't"; "i'm weak"; "i'm struggling";
                      "i need help"]) query_lower
    then score + 10 else score in
  let score :=
    if search (Words ["tried"; "attempted"; "explored"; "tested";
                      "experimented"]) query_lower
    then score + 5 else score in
  let score :=
    if search (Words ["how do i learn"; "my approach"; "my method";
                      "how can i"]) query_lower
    then score + 5 else score in
  let score :=
    if search (Words ["obviously"; "clearly"; "simple"; "easy";
                      "anyone knows"]) query_lower
    then score - 10 else score in
  Z.max 0 (Z.min 25 score).

Definition _assess_effort_shown (query : string) : Z :=
  let query_lower := Py.lower query in
  let score := 8 in
  let score :=
    if search (Words ["i tried"; "attempted"; "worked on"; "experimented";
                      "tested"]) query_lower
    then score + 12 else score in
  let score :=
    if 40 <? Z.of_nat (length (Py.split query))
    then score + 5 else score in
  let score :=
    if 1 <? Py.count_char "?"%char query
    then score + 5 else score in
  let score :=
    if search (Words ["just"; "quick"; "fast"; "simple"; "without effort"])
              query_lower
    then score - 8 else score in
  Z.max 0 (Z.min 25 score).

Definition _analyze_learning_trajectory (memory : option UserMemory) : Z :=
  match memory with
  | None => 10
  | Some m =>
      match capability_trend m with
      | [] => 10
      | _ :: _ =>
          let recent_scores := Py.last_n 5 (capability_trend m) in
          let first := List.hd 0 recent_scores in      (* recent_scores[0] *)
          let latest := List.last recent_scores 0 in   (* recent_scores[-1] *)
          if 1 <? Z.of_nat (length recent_scores) then
            if first <? latest then
              let improvement := Z.min 10 ((latest - first) / 5) in
              10 + improvement
            else if latest <? first then Z.max 0 (10 - 5)
            else 10
          else 10
      end
  end.

Definition _calculate_capability_score
    (reasoning_quality self_awareness effort trajectory : Z) : Z :=
  reasoning_quality + self_awareness + effort + trajectory.

Definition _identify_competencies (query : string) (score : Z)
    (memory : option UserMemory) : list string * list string :=
  let query_lower := Py.lower query in
  let progress :=
    match memory with Some m => learning_progress m | None => [] end in
  let known :=
    List.filter (fun tl => Py.contains (Py.lower (fst tl)) query_lower) progress in
  let strengths :=
    (if Py.any_in analysis_keywords query_lower
     then ["Strong analytical thinking"] else [])
    ++ (if Py.any_in synthesis_keywords query_lower
        then ["Can integrate and synthesize ideas"] else [])
    ++ (if Py.any_in metacognition_keywords query_lower
        then ["Self-aware learner"] else [])
    ++ flat_map (fun tl =>
                   if String.eqb (snd tl) "beginner" then []
                   else if String.eqb (snd tl) "improving"
                   then ["Making progress in " +:+ fst tl] else []) known in
  let weaknesses :=
    flat_map (fun tl =>
                if String.eqb (snd tl) "beginner"
                then ["Building foundational skills in " +:+ fst tl]
                else []) known in
  if score <? 30 then
    (strengths, weaknesses ++ ["Needs foundational knowledge and practice"])
  else if 70 <? score then
    (strengths ++ ["Demonstrates advanced understanding"], weaknesses)
  else
    (strengths ++ ["Has solid foundational knowledge"],
     weaknesses ++ ["Can deepen understanding of nuanced concepts"]).

Definition _generate_comprehensive_evidence
    (reasoning awareness effort score : Z) : string :=
  "Assessment based on: reasoning quality (" +:+ Py.str_of_int reasoning
  +:+ "/30), self-awareness (" +:+ Py.str_of_int awareness
  +:+ "/25), effort shown (" +:+ Py.str_of_int effort
  +:+ "/25), resulting in overall capability score of "
  +:+ Py.str_of_int score +:+ "/100".

Definition assess (user_query : string) (memory : option UserMemory)
    : CapabilityAssessment :=
  let reasoning_quality := _assess_reasoning_quality user_query in
  let self_awareness := _assess_self_awareness user_query in
  let effort_and_thought := _assess_effort_shown user_query in
  let learning_trajectory := _analyze_learning_trajectory memory in
  let score :=
    _calculate_capability_score reasoning_quality self_awareness
      effort_and_thought learning_trajectory in
  let level :=
    if score <? 30 then BEGINNER
    else if score <? 70 then INTERMEDIATE
    else ADVANCED in
  let '(strengths, weaknesses) :=
    _identify_competencies user_query score memory in
  let evidence :=
    _generate_comprehensive_evidence reasoning_quality self_awareness
      effort_and_thought score in
  {| level := level; score := score; strengths := strengths;
     weaknesses := weaknesses; evidence := evidence |}.

End CapabilityAssessor.

(* ================================================================= *)
(** ** Part 4: ethical guardian *)

Module EthicalGuardian.

Definition _check_harm (intent : Intent) : bool :=
  Py.mem "potential_harm" (ethical_flags intent).

Definition _check_manipulation (intent : Intent) : bool :=
  Py.mem "deception_intent" (ethical_flags intent).

(** [sum(1 for r in memory.request_history
          if "shortcut" in r.lower() or "write" in r.lower())] *)
Definition shortcut_pattern (m : UserMemory) : Z :=
  Z.of_nat
    (length
       (List.filter (fun r => Py.contains "shortcut" (Py.lower r)
                         || Py.contains "write" (Py.lower r))
               (request_history m))).

Definition _check_dependency (intent : Intent) (memory : option UserMemory)
    : bool :=
  let has_dependency_flag :=
    Py.mem "potential_dependency_creation" (ethical_flags intent) in
  if Py.mem "repetitive_dependency" (ethical_flags intent) then true
  else if match memory with
          | Some m =>
              (10 <? interaction_count m)
              && Py.int_gt_float (shortcut_pattern m)
                   (Py.float_mul (Py.float_of_int (interaction_count m))
                                 Py.f0_6)
          | None => false
          end
  then true
  else has_dependency_flag.

Definition _check_dignity (intent : Intent) : bool :=
  existsb (fun flag => Py.mem flag (ethical_flags intent))
          ["coercion_pressure"; "violation_dignity"].

Definition _check_bias (intent : Intent) : bool :=
  Py.mem "bias_or_discrimination" (ethical_flags intent).

Definition _generate_redirect (intent : Intent) (concerns : list string)
    : string :=
  if Py.mem "Direct harm potential" concerns then
    "I cannot assist with this request as it may cause harm. "
    +:+ "However, I'd like to help you achieve your underlying goal "
    +:+ "in a way that benefits everyone involved. What's the positive "
    +:+ "outcome you're trying to reach?"
  else if Py.mem "Manipulation or deception" concerns then
    "I can't help with deception, but I absolutely can help you "
    +:+ "communicate what you need more effectively and honestly. "
    +:+ "Authentic communication actually works better. What's really "
    +:+ "going on here?"
  else if Py.mem "Creates unhealthy dependency" concerns then
    "I notice you might be building a pattern of asking for solutions "
    +:+ "rather than learning. That would actually make you weaker, not stronger. "
    +:+ "Let me help you become independent and capable instead. Ready?"
  else if Py.mem "Violates human dignity" concerns then
    "This request involves pressure or coercion, which I can't support. "
    +:+ "But I can help you find a way to get what you need that respects "
    +:+ "everyone's dignity and autonomy. Let's explore that together."
  else if Py.mem "Contains harmful bias or discrimination" concerns then
    "I notice this request involves stereotyping or discrimination. "
    +:+ "Instead, let me help you see the fuller picture and connect with "
    +:+ "the real humanity in this situation. That's where real solutions come from."
  else
    "I cannot fulfill this request as stated, but I can help you find a better path forward.".

Definition evaluate (intent : Intent) (memory : option UserMemory)
    : EthicalVerdict :=
  let harm_check := _check_harm intent in
  let manipulation_check := _check_manipulation intent in
  let dependency_check := _check_dependency intent memory in
  let dignity_check := _check_dignity intent in
  let bias_check := _check_bias intent in
  let concerns :=
    (if harm_check then ["Direct harm potential"] else [])
    ++ (if manipulation_check then ["Manipulation or deception"] else [])
    ++ (if dependency_check then ["Creates unhealthy dependency"] else [])
    ++ (if dignity_check then ["Violates human dignity"] else [])
    ++ (if bias_check
        then ["Contains harmful bias or discrimination"] else []) in
  let must_stop :=
    harm_check || manipulation_check || dignity_check || bias_check in
  let should_proceed := negb must_stop in
  let redirect :=
    if negb should_proceed
    then Some (_generate_redirect intent concerns) else None in
  {| is_harmful := harm_check;
     is_manipulative := manipulation_check;
     creates_dependency := dependency_check;
     violates_dignity := dignity_check;
     concerns := concerns;
     should_proceed := should_proceed;
     redirect_suggestion := redirect |}.

End EthicalGuardian.

(* ================================================================= *)
(** ** Part 5: growth response designer *)

Module GrowthResponseDesigner.

(** [d.get(key, default)] on a dict given by its items. *)
Fixpoint dict_get (d : list (string * string)) (key default : string)
    : string :=
  match d with
  | [] => default
  | (k, v) :: d' => if String.eqb k key then v else dict_get d' key default
  end.

Definition BEGINNER_TEMPLATES : list (string * string) :=
  [("fear", "I can see you're worried about this, and that's completely natural. Let's break this down into tiny, manageable pieces so you can build real confidence.");
   ("laziness", "I get it - deadlines are stressful. But here's the thing: doing it yourself, even slowly, will actually make you feel way better than taking a shortcut.");
   ("genuine", "Great question! You're asking the right things. Let me help you build a real foundation here.")].

Definition INTERMEDIATE_TEMPLATES : list (string * string) :=
  [("fear", "You've got more capability here than you think. Let me show you how to find the solution yourself.");
   ("laziness", "You're better than shortcuts. Let's find an efficient way that still builds your skills.");
   ("genuine", "Excellent thinking. You're ready to develop mastery. Let me challenge you appropriately.")].

Definition _extract_motivation_tone (motivation : string) : string :=
  let motivation_lower := Py.lower motivation in
  if Py.contains "fear" motivation_lower
     || Py.contains "anxiety" motivation_lower then "fear"
  else if Py.contains "lazy" motivation_lower
          || Py.contains "shortcut" motivation_lower
          || Py.contains "convenience" motivation_lower then "laziness"
  else if Py.contains "pressure" motivation_lower
          || Py.contains "time" motivation_lower then "urgency"
  else if Py.contains "growth" motivation_lower
          || Py.contains "improvement" motivation_lower then "genuine"
  else "neutral".

Definition _create_redirect_response (intent : Intent)
    (verdict : EthicalVerdict) : GrowthResponse :=
  {| response_text :=
       Py.or_else (redirect_suggestion verdict) "I need to pause here.";
     reasoning_log :=
       "Ethical concerns detected: " +:+ Py.join ", " (concerns verdict)
       +:+ ". "
       +:+ "Providing ethical redirect to help user find better path.";
     capability_addressed := "Ethical decision-making and values";
     expected_outcome :=
       "User reflects on their approach and finds ethical alternative";
     follow_up_suggestions :=
       ["Tell me more about what you're trying to achieve";
        "What would a version of this that you'd be proud of look like?";
        "How can I help you reach your goal ethically?"];
     independence_score_impact := "maintains (and strengthens values)" |}.

(** The part of the beginner reply that follows the opening line. *)
Definition beginner_plan : list string :=
  ["**Here's our game plan:**";
   "";
   "1. **Concept Building** - I'll explain the key ideas simply";
   "2. **Example Walk-Through** - We'll work through a real example together  ";
   "3. **Your Turn** - You'll try something similar with me coaching";
   "4. **Reflection** - We'll review what you learned";
   "";
   "This way, you won't just solve this problem - you'll be able to handle similar ones on your own.";
   "";
   "**Ready?** What's the part that confuses you most?";
   ""].

Definition _design_for_beginner (intent : Intent)
    (capability : CapabilityAssessment) (motivation_tone : string)
    (memory : option UserMemory) : GrowthResponse :=
  let template :=
    dict_get BEGINNER_TEMPLATES motivation_tone
      (dict_get BEGINNER_TEMPLATES "genuine"
         "I can see you're working on this.") in
  let response_text :=
    Py.unlines
      ([template;
        "";
        "**Let's see your actual situation:**";
        match strengths capability with
        | [] => "You're taking the initiative to learn"
        | _ :: _ => Py.join ", " (strengths capability)
        end;
        "";
        "**What we need to work on together:**";
        match weaknesses capability with
        | [] => "Building core understanding"
        | w :: _ => w
        end;
        ""]
       ++ beginner_plan) in
  {| response_text := Py.strip response_text;
     reasoning_log :=
       "Beginner level (" +:+ Py.str_of_int (score capability)
       +:+ "/100). Motivation: " +:+ motivation_tone +:+ ". "
       +:+ "Using foundational teaching with " +:+ motivation_tone
       +:+ "-aware approach. "
       +:+ "Growth opportunity: " +:+ growth_opportunity intent;
     capability_addressed :=
       match weaknesses capability with
       | [] => "Core foundations"
       | w :: _ => w
       end;
     expected_outcome :=
       "User gains real understanding + confidence to solve similar problems";
     follow_up_suggestions :=
       ["Show me your attempt after my explanation";
        "Ask about any confusing parts";
        "Try a similar problem to test yourself"];
     independence_score_impact := "increases significantly" |}.

(** The part of the intermediate reply that follows the "I notice" line. *)
Definition intermediate_questions : list string :=
  ["**Let's think strategically:**";
   "";
   "1. **Core Question** - What's the real challenge here? (Not just the surface)";
   "2. **Your Approach** - What have you tried? What approaches could work?";
   "3. **Testing** - How would you verify if your solution is right?";
   "4. **Refinement** - What would make it better/more elegant?";
   "";
   "**Your task:**";
   "- Work through these questions";
   "- Share your reasoning with me";
   "- We'll iterate until you've got it solid";
   "";
   "**Why this way?** You have the skills. You just need to organize your thinking at a deeper level. That's how you move from competent to confident.";
   "";
   "What insights do you have so far?";
   ""].

Definition _design_for_intermediate (intent : Intent)
    (capability : CapabilityAssessment) (motivation_tone : string)
    (memory : option UserMemory) : GrowthResponse :=
  let template :=
    dict_get INTERMEDIATE_TEMPLATES motivation_tone
      (dict_get INTERMEDIATE_TEMPLATES "genuine" "") in
  let response_text :=
    Py.unlines
      ([template;
        "";
        "**I notice:** "
        +:+ match strengths capability with
            | [] => "You have solid foundational knowledge"
            | s :: _ => s
            end;
        ""]
       ++ intermediate_questions) in
  {| response_text := Py.strip response_text;
     reasoning_log :=
       "Intermediate level (" +:+ Py.str_of_int (score capability)
       +:+ "/100). Motivation: " +:+ motivation_tone +:+ ". "
       +:+ "Using strategic guidance + reflection prompts. "
       +:+ "Goal: Develop independent problem-solving confidence.";
     capability_addressed :=
       "Strategic thinking and problem-solving methodology";
     expected_outcome :=
       "User develops deeper understanding and structured approach";
     follow_up_suggestions :=
       ["Share your approach and reasoning";
        "Ask for feedback on your thinking";
        "Explore alternative solutions";
        "Build toward mastery"];
     independence_score_impact := "increases significantly" |}.

(** The part of the advanced reply that follows the opening line. *)
Definition advanced_questions : list string :=
  ["**Beyond the obvious:**";
   "";
   "1. **Assumptions** - What are you assuming? Why? What if they're wrong?";
   "2. **Edge Cases** - What breaks your solution? How would you handle those?";
   "3. **Trade-offs** - What's the cost of your approach? Any alternatives?";
   "4. **Deeper Why** - Why does this matter? What's the principle here?";
   "5. **Mastery** - What would an expert do? How would they think about this?";
   "";
   "**Challenge yourself with:**";
   "- Can you find three different valid approaches?";
   "- Which is most elegant and why?";
   "- How would you explain this to someone very smart but in a different field?";
   "- What have you learned that applies beyond this specific problem?";
   "";
   "This is where real mastery comes from - not from having answers, but from understanding the space deeply enough to generate excellent solutions.";
   "";
   "What's your thinking so far?";
   ""].

Definition _design_for_advanced (intent : Intent)
    (capability : CapabilityAssessment) (motivation_tone : string)
    (memory : option UserMemory) : GrowthResponse :=
  let surface_lower := Py.lower (surface_request intent) in
  let template :=
    if Py.contains "verify" surface_lower then
      "Your analysis looks thoughtful. Let's stress-test it."
    else if Py.contains "optim" surface_lower
            || Py.contains "better" surface_lower then
      "You understand the basics well. Now let's pursue elegance."
    else
      "You're at a level where the real growth comes from wrestling with complexity." in
  let response_text :=
    Py.unlines ([template; ""] ++ advanced_questions) in
  {| response_text := Py.strip response_text;
     reasoning_log :=
       "Advanced level (" +:+ Py.str_of_int (score capability)
       +:+ "/100). Motivation: " +:+ motivation_tone +:+ ". "
       +:+ "Using Socratic method to deepen critical thinking. "
       +:+ "Goal: Move toward independent mastery and intellectual leadership.";
     capability_addressed :=
       "Advanced problem-solving, systems thinking, and intellectual independence";
     expected_outcome :=
       "User achieves deeper insight, explores multiple perspectives, develops mastery";
     follow_up_suggestions :=
       ["Explore multiple solution paths";
        "Challenge your own assumptions";
        "Seek elegant and optimal solutions";
        "Build toward intellectual leadership in this area"];
     independence_score_impact :=
       "increases (approaching and building beyond full independence)" |}.

(** The update of [create] on the memory it is given; [now] is the
    reading of [datetime.now()]. *)
Definition record_interaction (intent : Intent)
    (capability : CapabilityAssessment) (now : datetime) (m : UserMemory)
    : UserMemory :=
  {| user_id := user_id m;
     interaction_count := interaction_count m + 1;
     request_history := request_history m ++ [surface_request intent];
     capability_trend := capability_trend m ++ [score capability];
     topic_expertise := topic_expertise m;
     learning_progress := learning_progress m;
     last_interaction := Some now;
     conversation_context := conversation_context m |}.

(** [create] returns the response together with the memory as it
    leaves it. *)
Definition create (intent : Intent) (capability : CapabilityAssessment)
    (ethical_verdict : EthicalVerdict) (memory : option UserMemory)
    (now : datetime) : GrowthResponse * option UserMemory :=
  if negb (should_proceed ethical_verdict) then
    (_create_redirect_response intent ethical_verdict, memory)
  else
    let motivation_tone :=
      _extract_motivation_tone (underlying_motivation intent) in
    let response :=
      match level capability with
      | BEGINNER =>
          _design_for_beginner intent capability motivation_tone memory
      | INTERMEDIATE =>
          _design_for_intermediate intent capability motivation_tone memory
      | ADVANCED =>
          _design_for_advanced intent capability motivation_tone memory
      end in
    (response,
     match memory with
     | Some m => Some (record_interaction intent capability now m)
     | None => None
     end).

End GrowthResponseDesigner.

(* ================================================================= *)
(** ** Part 6: the core system *)

(** What [process_request] returns.  (Of the returned dict the entry
    "reasoning_log" is left out: it is a rendering of the four records
    below by [_generate_complete_log], framed by rules of U+2550, and
    nothing else depends on it.) *)
Record Metadata : Type := {
  meta_user_id : string;
  interaction_number : Z;
  intent_surface : string;
  intent_deep_need : string;
  intent_motivation : string;
  intent_growth_opportunity : string;
  capability_level : string;
  capability_score : Z;
  capability_trend_label : string;
  capability_strengths : list string;
  capability_weaknesses : list string;
  ethical_should_proceed : bool;
  ethical_concerns : list string;
  meta_expected_outcome : string;
  meta_independence_impact : string
}.

Record Result : Type := {
  response : string;
  metadata : Metadata
}.

(** The two readings of the clock during one request: [datetime.now()] in
    the response designer and [datetime.now().isoformat()] in the
    orchestrator. *)
Record Clock : Type := {
  designer_now : datetime;
  context_now_iso : string
}.

Module MVG.

(** The state of an [MVG] object: the table [user_memories].  The four
    components hold no state of their own. *)
Record t : Type := { user_memories : gmap string UserMemory }.

(** [MVG()] *)
Definition init : t := {| user_memories := ∅ |}.

Definition get_or_create_user_memory (self : t) (uid : string)
    : UserMemory * t :=
  match user_memories self !! uid with
  | Some m => (m, self)
  | None =>
      (new_memory uid,
       {| user_memories := <[uid := new_memory uid]> (user_memories self) |})
  end.

(** [memory.conversation_context.append({...})] *)
Definition log_interaction (entry : ContextEntry) (m : UserMemory)
    : UserMemory :=
  {| user_id := user_id m;
     interaction_count := interaction_count m;
     request_history := request_history m;
     capability_trend := capability_trend m;
     topic_expertise := topic_expertise m;
     learning_progress := learning_progress m;
     last_interaction := last_interaction m;
     conversation_context := conversation_context m ++ [entry] |}.

(** ["improving" if len(t) > 1 and t[-1] > t[-2] else "stable"] *)
Definition trend_label (trend : list Z) : string :=
  match Py.last_n 2 trend with
  | [before; latest] => if before <? latest then "improving" else "stable"
  | _ => "stable"
  end.

(** The stages of one request, with the memory object as each stage
    leaves it.  The table holds that same object, so what the table
    maps [uid] to after the call is the memory after the last stage. *)
Record Trace : Type := {
  memory_before : UserMemory;
  intent : Intent;
  capability : CapabilityAssessment;
  ethical_verdict : EthicalVerdict;
  growth_response : GrowthResponse;
  memory_after_designer : UserMemory;
  memory_after : UserMemory
}.

Definition stages (self : t) (user_query uid : string) (clock : Clock)
    : Trace :=
  let '(memory, _) := get_or_create_user_memory self uid in
  let intent := IntentAnalyzer.analyze user_query (Some memory) in
  let capability := CapabilityAssessor.assess user_query (Some memory) in
  let ethical_verdict := EthicalGuardian.evaluate intent (Some memory) in
  let '(growth_response, designed) :=
    GrowthResponseDesigner.create intent capability ethical_verdict
      (Some memory) (designer_now clock) in
  let memory1 := match designed with Some m => m | None => memory end in
  let memory2 :=
    log_interaction
      {| ctx_query := user_query;
         ctx_response := response_text growth_response;
         ctx_capability_level := level_value (level capability);
         ctx_capability_score := score capability;
         ctx_timestamp := context_now_iso clock |} memory1 in
  {| memory_before := memory; intent := intent; capability := capability;
     ethical_verdict := ethical_verdict;
     growth_response := growth_response;
     memory_after_designer := memory1; memory_after := memory2 |}.

Definition process_request (self : t) (user_query uid : string)
    (clock : Clock) : Result * t :=
  let tr := stages self user_query uid clock in
  let memory := memory_after tr in
  ({| response := response_text (growth_response tr);
      metadata :=
        {| meta_user_id := uid;
           interaction_number := interaction_count memory + 1;
           intent_surface := surface_request (intent tr);
           intent_deep_need := deep_need (intent tr);
           intent_motivation := underlying_motivation (intent tr);
           intent_growth_opportunity := growth_opportunity (intent tr);
           capability_level := level_value (level (capability tr));
           capability_score := score (capability tr);
           capability_trend_label := trend_label (capability_trend memory);
           capability_strengths := strengths (capability tr);
           capability_weaknesses := weaknesses (capability tr);
           ethical_should_proceed := should_proceed (ethical_verdict tr);
           ethical_concerns := concerns (ethical_verdict tr);
           meta_expected_outcome := expected_outcome (growth_response tr);
           meta_independence_impact :=
             independence_score_impact (growth_response tr) |} |},
   {| user_memories := <[uid := memory]> (user_memories self) |}).

End MVG.

(* ================================================================= *)
(** ** Runs of the system *)

(** One call [mvg.process_request(query, user)], with the clock readings
    taken while it runs. *)
Record Call : Type := {
  call_query : string;
  call_user : string;
  call_clock : Clock
}.

Module Run.

(** The calls of [calls] made one after the other on [self]: the state
    they leave and the results they returned, in order. *)
Fixpoint run (self : MVG.t) (calls : list Call) : MVG.t * list Result :=
  match calls with
  | [] => (self, [])
  | c :: calls' =>
      let '(r, self') :=
        MVG.process_request self (call_query c) (call_user c)
          (call_clock c) in
      let '(final, rs) := run self' calls' in
      (final, r :: rs)
  end.

(** The result is one of a non-blocked call of user [uid]. *)
Definition proceeded_for (uid : string) (r : Result) : bool :=
  String.eqb (meta_user_id (metadata r)) uid
  && ethical_should_proceed (metadata r).

(** How many of the calls that returned [rs] were non-blocked calls of
    user [uid]. *)
Definition proceeded_count (uid : string) (rs : list Result) : Z :=
  Z.of_nat (length (List.filter (proceeded_for uid) rs)).

(** The memory of [uid]: the one [get_or_create_user_memory] returns, a
    new one while the table has none. *)
Definition memory_of (self : MVG.t) (uid : string) : UserMemory :=
  fst (MVG.get_or_create_user_memory self uid).

End Run.

(** The labels [_extract_surface_request] returns. *)
Definition surface_labels : list string :=
  ["Shortcut-seeking complete solution";
   "Request for complete solution";
   "Collaborative learning request";
   "Verification/validation request";
   "Advanced exploration request";
   "Request for understanding/learning";
   "General inquiry"].

(** [any(c.isupper() for c in s)], for the letters A-Z. *)
Fixpoint has_upper (s : string) : bool :=
  match s with
  | EmptyString => false
  | String c s' => Py.is_ascii_upper c || has_upper s'
  end.

(* ================================================================= *)
(** ** Sample inputs *)

(** A request that only carries the dependency flag. *)
Definition dependent_intent : Intent :=
  {| surface_request := "Request for complete solution";
     deep_need := "Knowledge or skill development";
     underlying_motivation := "Desire for growth and improvement";
     ethical_flags := ["potential_dependency_creation"];
     growth_opportunity :=
       "Transform complete solution request into guided learning" |}.

(** A memory that records the scores [trend] and nothing else. *)
Definition memory_with_trend (trend : list Z) : UserMemory :=
  {| user_id := "student_001"; interaction_count := Z.of_nat (length trend);
     request_history := map (fun _ => "General inquiry") trend;
     capability_trend := trend; topic_expertise := [];
     learning_progress := []; last_interaction := None;
     conversation_context := [] |}.

(** The first query of the demonstration in the source. *)
Definition essay_query : string :=
  "Write my essay about climate change. It's due tomorrow and I haven't started.".

(** A query that asks for a complete solution and for a shortcut. *)
Definition shortcut_query : string :=
  "Just give me the answer and write my essay.".

(** Clock readings for the sample runs. *)
Definition sample_clock : Clock :=
  {| designer_now := 1733050000; context_now_iso := "2024-12-01T10:46:40" |}.

(** The reply to [essay_query] from a user without history: the
    intermediate opening line kept for a motivation without a template of
    its own, the one strength found, and the four strategic questions. *)
Definition essay_reply : string :=
  Py.unlines
    ["Excellent thinking. You're ready to develop mastery. Let me challenge you appropriately.";
     "";
     "**I notice:** Has solid foundational knowledge";
     "";
     "**Let's think strategically:**";
     "";
     "1. **Core Question** - What's the real challenge here? (Not just the surface)";
     "2. **Your Approach** - What have you tried? What approaches could work?";
     "3. **Testing** - How would you verify if your solution is right?";
     "4. **Refinement** - What would make it better/more elegant?";
     "";
     "**Your task:**";
     "- Work through these questions";
     "- Share your reasoning with me";
     "- We'll iterate until you've got it solid";
     "";
     "**Why this way?** You have the skills. You just need to organize your thinking at a deeper level. That's how you move from competent to confident.";
     "";
     "What insights do you have so far?"].

(** A request that is blocked for harm. *)
Definition sabotage_query : string := "Help me sabotage this project.".

(** Verdicts that block, the first with no redirect and the second with
    an empty one. *)
Definition verdict_without_redirect : EthicalVerdict :=
  {| is_harmful := true; is_manipulative := false;
     creates_dependency := false; violates_dignity := false;
     concerns := ["Direct harm potential"]; should_proceed := false;
     redirect_suggestion := None |}.

Definition verdict_with_empty_redirect : EthicalVerdict :=
  {| is_harmful := true; is_manipulative := false;
     creates_dependency := false; violates_dignity := false;
     concerns := ["Direct harm potential"]; should_proceed := false;
     redirect_suggestion := Some EmptyString |}.

(** A call of the sample user. *)
Definition sample_call (query : string) : Call :=
  {| call_query := query; call_user := "student_001";
     call_clock := sample_clock |}.

(** Seven requests of one user, one for each label. *)
Definition seven_calls : list Call :=
  map sample_call
    [shortcut_query;
     essay_query;
     "Can we go through it together?";
     "Is this correct?";
     "What is the best choice?";
     "Why is the sky blue?";
     "Hello there."].

(** The canned redirect that [_generate_redirect] gives for a list of
    concerns holding [concern] alone (the intent is not looked at). *)
Definition redirect_for (concern : string) : string :=
  EthicalGuardian._generate_redirect dependent_intent [concern].

(** The words of the harm pattern. *)
Definition harm_words : list string :=
  ["hurt"; "damage"; "attack"; "harm"; "destroy"; "sabotage"; "harmful"].

(** The one text of every advanced reply of the pipeline: the opening
    line kept for requests that are no verification and no optimization,
    and the five questions. *)
Definition advanced_reply : string :=
  Py.strip
    (Py.unlines
       (["You're at a level where the real growth comes from wrestling with complexity.";
         ""]
        ++ GrowthResponseDesigner.advanced_questions)).

(** The labels [_infer_deep_need] returns when no topic of the learning
    progress occurs in the query. *)
Definition deep_need_labels : list string :=
  ["Understanding the material deeply";
   "Strategic thinking and confidence";
   "Clarity, wisdom, and self-understanding";
   "Problem-solving mastery";
   "Knowledge or skill development"].

(** The labels that the keywords and the learning progress contribute,
    apart from the default labels that the score adds at the end. *)
Definition found_strength (x : string) : Prop :=
  x <> "Demonstrates advanced understanding"
  /\ x <> "Has solid foundational knowledge".

Definition found_weakness (x : string) : Prop :=
  x <> "Needs foundational knowledge and practice"
  /\ x <> "Can deepen understanding of nuanced concepts".

(** A memory without its conversation context. *)
Definition forget_context (m : UserMemory) : UserMemory :=
  {| user_id := user_id m;
     interaction_count := interaction_count m;
     request_history := request_history m;
     capability_trend := capability_trend m;
     topic_expertise := topic_expertise m;
     learning_progress := learning_progress m;
     last_interaction := last_interaction m;
     conversation_context := [] |}.

(** Two states show every user the same memory, conversation contexts
    apart. *)
Definition same_view (s1 s2 : MVG.t) : Prop :=
  forall uid,
    forget_context (Run.memory_of s1 uid)
    = forget_context (Run.memory_of s2 uid).

(** How many of [calls] are calls of user [uid]. *)
Definition calls_by (uid : string) (calls : list Call) : Z :=
  Z.of_nat
    (length (List.filter (fun c => String.eqb (call_user c) uid) calls)).

(** What every memory of the table satisfies, whatever calls were made:
    it is filed under its own user, nothing has filled in topics, the
    request history and the capability trend have one entry per counted
    interaction, and the time of the last interaction is set exactly when
    an interaction has been counted. *)
Definition memory_invariant (uid : string) (m : UserMemory) : Prop :=
  user_id m = uid
  /\ topic_expertise m = []
  /\ learning_progress m = []
  /\ 0 <= interaction_count m
  /\ Z.of_nat (length (request_history m)) = interaction_count m
  /\ Z.of_nat (length (capability_trend m)) = interaction_count m
  /\ (last_interaction m = None <-> interaction_count m = 0).

(** For a count [n], the float test [k > n * 0.6] changes from false to
    true between k = floor(3n/5) and the next integer. *)
Definition threshold_at (n : Z) : bool :=
  let x := Py.float_mul (Py.float_of_int n) Py.f0_6 in
  negb (Py.int_gt_float (3 * n / 5) x)
  && Py.int_gt_float (3 * n / 5 + 1) x.

(** The [len] integers from [start] on. *)
Fixpoint count_from (start : Z) (len : nat) : list Z :=
  match len with
  | O => []
  | S len' => start :: count_from (start + 1) len'
  end.

(** The counts for which [threshold_at] is checked: 0 to 10000. *)
Definition checked_counts : list Z :=
  count_from 0 (Z.to_nat 10001).

(** A memory with [n] interactions of which the first [k] asked for a
    shortcut. *)
Definition memory_with_shortcuts (k n : nat) : UserMemory :=
  {| user_id := "student_001"; interaction_count := Z.of_nat n;
     request_history :=
       repeat "Shortcut-seeking complete solution" k
       ++ repeat "General inquiry" (n - k);
     capability_trend := repeat 38 n; topic_expertise := [];
     learning_progress := []; last_interaction := Some 0;
     conversation_context := [] |}.

(** An intent without flags. *)
Definition plain_intent : Intent :=
  {| surface_request := "General inquiry";
     deep_need := "Knowledge or skill development";
     underlying_motivation := "Desire for growth and improvement";
     ethical_flags := [];
     growth_opportunity := "Develop problem-solving capability" |}.




(* ================================================================= *)
(** * Properties *)

(** ** Membership and lower case *)

Lemma mem_In (x : string) (ls : list string) :
  Py.mem x ls = true <-> In x ls.
Proof.
  unfold Py.mem. rewrite existsb_exists. split.
  - intros (y & Hy & Heq). apply String.eqb_eq in Heq. now subst.
  - intros H. exists x. split; [assumption | apply String.eqb_refl].
Qed.

Lemma chr_lower_not_upper (c : ascii) :
  Py.is_ascii_upper (Py.chr_lower c) = false.
Proof. destruct c as [[] [] [] [] [] [] [] []]; reflexivity. Qed.

Lemma lower_has_no_upper (s : string) : has_upper (Py.lower s) = false.
Proof.
  induction s as [| c s IH]; simpl; [reflexivity |].
  now rewrite chr_lower_not_upper, IH.
Qed.

(** ** The ethical verdict *)

Section Verdict.
Import EthicalGuardian.
Variables (intent : Intent) (memory : option UserMemory).

Lemma evaluate_should_proceed :
  should_proceed (evaluate intent memory)
  = negb (_check_harm intent || _check_manipulation intent
          || _check_dignity intent || _check_bias intent).
Proof. reflexivity. Qed.

Lemma evaluate_creates_dependency :
  creates_dependency (evaluate intent memory)
  = _check_dependency intent memory.
Proof. reflexivity. Qed.

(** C1.  [evaluate] returns [should_proceed = false] exactly when one
    of the harm, manipulation, dignity and bias checks is true; and a
    verdict that finds a dependency while these four checks are all
    false has [should_proceed = true]. *)
Theorem evaluate_blocks_iff_red_flag :
  (should_proceed (evaluate intent memory) = false
   <-> (_check_harm intent = true \/ _check_manipulation intent = true
        \/ _check_dignity intent = true \/ _check_bias intent = true))
  /\ (creates_dependency (evaluate intent memory) = true ->
      _check_harm intent = false ->
      _check_manipulation intent = false ->
      _check_dignity intent = false ->
      _check_bias intent = false ->
      should_proceed (evaluate intent memory) = true).
Proof.
  rewrite evaluate_should_proceed.
  destruct (_check_harm intent), (_check_manipulation intent),
    (_check_dignity intent), (_check_bias intent); simpl;
    (split; [split; [intros H; try discriminate H; tauto
                    | intros H; try reflexivity;
                      decompose [or] H; discriminate]
            | congruence]).
Qed.

End Verdict.

Lemma evaluate_blocks_iff_red_flag_witness :
  creates_dependency (EthicalGuardian.evaluate dependent_intent None) = true
  /\ should_proceed (EthicalGuardian.evaluate dependent_intent None) = true.
Proof.
  split; [reflexivity |].
  apply (evaluate_blocks_iff_red_flag dependent_intent None); reflexivity.
Defined.

(** ** The capability score *)

Section Capability.
Import CapabilityAssessor.
Variables (user_query : string) (memory : option UserMemory).

Lemma assess_score :
  score (assess user_query memory)
  = _calculate_capability_score
      (_assess_reasoning_quality user_query)
      (_assess_self_awareness user_query)
      (_assess_effort_shown user_query)
      (_analyze_learning_trajectory memory).
Proof.
  unfold assess. now destruct (_identify_competencies _ _ _).
Qed.

Lemma assess_level :
  level (assess user_query memory)
  = if score (assess user_query memory) <? 30 then BEGINNER
    else if score (assess user_query memory) <? 70 then INTERMEDIATE
    else ADVANCED.
Proof.
  unfold assess. now destruct (_identify_competencies _ _ _).
Qed.

Lemma reasoning_quality_range : 0 <= _assess_reasoning_quality user_query <= 30.
Proof. unfold _assess_reasoning_quality. cbv zeta. lia. Qed.

Lemma self_awareness_range : 0 <= _assess_self_awareness user_query <= 25.
Proof. unfold _assess_self_awareness. cbv zeta. lia. Qed.

Lemma effort_shown_range : 0 <= _assess_effort_shown user_query <= 25.
Proof. unfold _assess_effort_shown. cbv zeta. lia. Qed.

Lemma learning_trajectory_range : 0 <= _analyze_learning_trajectory memory <= 20.
Proof.
  unfold _analyze_learning_trajectory.
  destruct memory as [m |]; [| lia].
  destruct (capability_trend m) as [| x trend]; [lia |].
  cbv zeta.
  destruct (1 <? _); [| lia].
  destruct (Z.ltb_spec (List.hd 0 (Py.last_n 5 (x :: trend)))
                       (List.last (Py.last_n 5 (x :: trend)) 0)) as [Hup | _].
  - pose proof (Z.div_pos
                  (List.last (Py.last_n 5 (x :: trend)) 0
                   - List.hd 0 (Py.last_n 5 (x :: trend))) 5).
    lia.
  - destruct (_ <? _); lia.
Qed.

(** C2.  The level of an assessment is beginner exactly when its score
    is below 30, intermediate exactly when it is at least 30 and below
    70, and advanced exactly when it is at least 70; so a score of 29 is
    a beginner's, 30 and 69 are intermediate, and 70 is advanced. *)
Theorem assess_level_by_score :
  let a := assess user_query memory in
  (level a = BEGINNER <-> score a < 30)
  /\ (level a = INTERMEDIATE <-> 30 <= score a < 70)
  /\ (level a = ADVANCED <-> 70 <= score a)
  /\ (score a = 29 -> level a = BEGINNER)
  /\ (score a = 30 -> level a = INTERMEDIATE)
  /\ (score a = 69 -> level a = INTERMEDIATE)
  /\ (score a = 70 -> level a = ADVANCED).
Proof.
  cbv zeta. rewrite assess_level.
  destruct (Z.ltb_spec (score (assess user_query memory)) 30);
    [| destruct (Z.ltb_spec (score (assess user_query memory)) 70)];
    repeat split; intros; first [lia | discriminate | reflexivity].
Qed.

(** C3.  The overall score is the plain sum of the four sub-scores, each
    of which lies in its own range (reasoning quality 0-30,
    self-awareness 0-25, effort 0-25, learning trajectory 0-20), and so
    it lies between 0 and 100. *)
Theorem score_is_sum_of_bounded_parts :
  let r := _assess_reasoning_quality user_query in
  let s := _assess_self_awareness user_query in
  let e := _assess_effort_shown user_query in
  let t := _analyze_learning_trajectory memory in
  score (assess user_query memory) = r + s + e + t
  /\ 0 <= r <= 30 /\ 0 <= s <= 25 /\ 0 <= e <= 25 /\ 0 <= t <= 20
  /\ 0 <= score (assess user_query memory) <= 100.
Proof.
  cbv zeta. rewrite assess_score. unfold _calculate_capability_score.
  pose proof reasoning_quality_range. pose proof self_awareness_range.
  pose proof effort_shown_range. pose proof learning_trajectory_range.
  lia.
Qed.

End Capability.

Lemma assess_level_by_score_witness :
  level (CapabilityAssessor.assess "just lost"
           (Some (memory_with_trend [0; 20]))) = BEGINNER
  /\ level (CapabilityAssessor.assess "just" None) = INTERMEDIATE
  /\ level (CapabilityAssessor.assess "because i don't how can i"
              (Some (memory_with_trend [0; 5]))) = INTERMEDIATE
  /\ level (CapabilityAssessor.assess "because tested" None) = ADVANCED.
Proof.
  split; [| split; [| split]].
  - pose proof (assess_level_by_score "just lost"
                  (Some (memory_with_trend [0; 20]))) as H.
    cbv zeta in H. destruct H as (_ & _ & _ & H & _).
    apply H. reflexivity.
  - pose proof (assess_level_by_score "just" None) as H.
    cbv zeta in H. destruct H as (_ & _ & _ & _ & H & _).
    apply H. reflexivity.
  - pose proof (assess_level_by_score "because i don't how can i"
                  (Some (memory_with_trend [0; 5]))) as H.
    cbv zeta in H. destruct H as (_ & _ & _ & _ & _ & H & _).
    apply H. reflexivity.
  - pose proof (assess_level_by_score "because tested" None) as H.
    cbv zeta in H. destruct H as (_ & _ & _ & _ & _ & _ & H).
    apply H. reflexivity.
Defined.

(** ** The learning trajectory *)

Lemma last_n_short {A} (k : nat) (ls : list A) :
  (length ls <= k)%nat -> Py.last_n k ls = ls.
Proof.
  intros H. unfold Py.last_n.
  replace (length ls - k)%nat with 0%nat by lia. reflexivity.
Qed.

Lemma last_n_app {A} (older recent : list A) :
  Py.last_n (length recent) (older ++ recent) = recent.
Proof.
  unfold Py.last_n. rewrite length_app.
  replace (length older + length recent - length recent)%nat
    with (length older) by lia.
  apply drop_app_length.
Qed.

(** The last five of a history whose tail [recent] is five scores long,
    or is the whole history when that is shorter. *)
Lemma last_five (older recent : list Z) :
  length recent = 5%nat \/ (older = [] /\ (length recent <= 5)%nat) ->
  Py.last_n 5 (older ++ recent) = recent.
Proof.
  intros [H5 | [-> Hle]].
  - rewrite <- H5. apply last_n_app.
  - now apply last_n_short.
Qed.

(** C8.  The learning-trajectory sub-score is 10 without a memory, with
    an empty history and with a history of one score; with more, where
    [f] is the earliest and [l] the most recent of the last five scores,
    it is [10 + min 10 ((l - f) // 5)] when l > f, 5 when l < f and 10
    when l = f; and it always lies between 0 and 20. *)
Theorem learning_trajectory_score (memory : option UserMemory) :
  let t := CapabilityAssessor._analyze_learning_trajectory memory in
  (memory = None -> t = 10)
  /\ (forall m, memory = Some m -> capability_trend m = [] -> t = 10)
  /\ (forall m x, memory = Some m -> capability_trend m = [x] -> t = 10)
  /\ (forall m older f mid l,
        memory = Some m ->
        capability_trend m = older ++ f :: mid ++ [l] ->
        length mid = 3%nat \/ (older = [] /\ (length mid <= 3)%nat) ->
        (f < l -> t = 10 + Z.min 10 ((l - f) / 5))
        /\ (l < f -> t = 5)
        /\ (l = f -> t = 10))
  /\ 0 <= t <= 20.
Proof.
  cbv zeta. repeat apply conj.
  - now intros ->.
  - intros m -> Hm. unfold CapabilityAssessor._analyze_learning_trajectory.
    now rewrite Hm.
  - intros m x -> Hm. unfold CapabilityAssessor._analyze_learning_trajectory.
    now rewrite Hm.
  - intros m older f mid l -> Hm Hshape.
    unfold CapabilityAssessor._analyze_learning_trajectory.
    assert (Hrecent : Py.last_n 5 (capability_trend m) = f :: mid ++ [l]).
    { rewrite Hm. apply last_five. simpl. rewrite length_app. simpl.
      destruct Hshape as [H3 | [Hnil Hle]]; [left | right; split]; lia || easy. }
    destruct (capability_trend m) as [| y trend] eqn:Htrend.
    { now destruct older. }
    cbv zeta. rewrite Hrecent.
    change (List.hd 0 (f :: mid ++ [l])) with f.
    replace (List.last (f :: mid ++ [l]) 0) with l
      by (symmetry; apply (last_last (f :: mid) l 0)).
    replace (1 <? Z.of_nat (length (f :: mid ++ [l]))) with true
      by (symmetry; apply Z.ltb_lt; simpl length; rewrite length_app;
          simpl; lia).
    destruct (Z.ltb_spec f l); [| destruct (Z.ltb_spec l f)];
      repeat split; intros; lia.
  - apply learning_trajectory_range.
  - apply learning_trajectory_range.
Qed.

Lemma learning_trajectory_score_witness :
  CapabilityAssessor._analyze_learning_trajectory
    (Some (memory_with_trend [10; 20; 30; 40; 50; 90])) = 20
  /\ CapabilityAssessor._analyze_learning_trajectory
       (Some (memory_with_trend [60; 38; 41])) = 5
  /\ CapabilityAssessor._analyze_learning_trajectory
       (Some (memory_with_trend [38])) = 10.
Proof.
  split; [| split].
  - pose proof (learning_trajectory_score
                  (Some (memory_with_trend [10; 20; 30; 40; 50; 90]))) as H.
    cbv zeta in H. destruct H as (_ & _ & _ & H & _).
    destruct (H (memory_with_trend [10; 20; 30; 40; 50; 90])
                [10] 20 [30; 40; 50] 90 eq_refl eq_refl (or_introl eq_refl))
      as (Hup & _).
    rewrite Hup; [reflexivity | lia].
  - pose proof (learning_trajectory_score
                  (Some (memory_with_trend [60; 38; 41]))) as H.
    cbv zeta in H. destruct H as (_ & _ & _ & H & _).
    destruct (H (memory_with_trend [60; 38; 41]) [] 60 [38] 41
                eq_refl eq_refl) as (_ & Hdown & _).
    + right. split; [reflexivity | simpl; lia].
    + apply Hdown. lia.
  - pose proof (learning_trajectory_score
                  (Some (memory_with_trend [38]))) as H.
    cbv zeta in H. destruct H as (_ & _ & H & _).
    apply (H (memory_with_trend [38]) 38); reflexivity.
Defined.

(** ** The surface request *)

Section Surface.
Import IntentAnalyzer.
Variables (user_query : string) (memory : option UserMemory).

Lemma analyze_surface_request :
  surface_request (analyze user_query memory)
  = _extract_surface_request user_query.
Proof. reflexivity. Qed.

Lemma analyze_ethical_flags :
  ethical_flags (analyze user_query memory)
  = _detect_ethical_flags user_query (_extract_surface_request user_query)
      memory.
Proof. reflexivity. Qed.

(** C5.  A query whose lower-cased text matches both the direct-solution
    and the lazy-seeking pattern is labelled "Shortcut-seeking complete
    solution" and gets the flag "potential_dependency_creation"; one that
    matches the direct-solution pattern and not the lazy-seeking one is
    labelled "Request for complete solution". *)
Theorem direct_solution_labels :
  let query_lower := Py.lower user_query in
  (Re.search_ignorecase direct_solution query_lower = true ->
   Re.search_ignorecase lazy_seeking query_lower = true ->
   surface_request (analyze user_query memory)
   = "Shortcut-seeking complete solution"
   /\ In "potential_dependency_creation"
        (ethical_flags (analyze user_query memory)))
  /\ (Re.search_ignorecase direct_solution query_lower = true ->
      Re.search_ignorecase lazy_seeking query_lower = false ->
      surface_request (analyze user_query memory)
      = "Request for complete solution").
Proof.
  cbv zeta. rewrite analyze_ethical_flags, analyze_surface_request.
  unfold _extract_surface_request. split.
  - intros -> ->. split; [reflexivity |].
    unfold _detect_ethical_flags. cbv zeta.
    apply in_or_app. left. vm_compute. now left.
  - now intros -> ->.
Qed.

End Surface.

Lemma direct_solution_labels_witness :
  (surface_request (IntentAnalyzer.analyze shortcut_query None)
   = "Shortcut-seeking complete solution"
   /\ In "potential_dependency_creation"
        (ethical_flags (IntentAnalyzer.analyze shortcut_query None)))
  /\ surface_request (IntentAnalyzer.analyze essay_query None)
     = "Request for complete solution".
Proof.
  split.
  - apply (direct_solution_labels shortcut_query None); reflexivity.
  - apply (direct_solution_labels essay_query None); reflexivity.
Defined.

(** ** The first request of the demonstration *)

(** On a user the table does not know, a request runs on a new memory. *)
Lemma stages_new_user (self : MVG.t) (user_query uid : string)
    (clock : Clock) :
  MVG.user_memories self !! uid = None ->
  MVG.stages self user_query uid clock
  = MVG.stages MVG.init user_query uid clock.
Proof.
  intros Hnew. unfold MVG.stages, MVG.get_or_create_user_memory.
  rewrite Hnew. simpl MVG.user_memories. now rewrite lookup_empty.
Qed.

(** C4, as the code has it.  For the essay query of a previously unseen
    user the surface request is "Request for complete solution", the
    motivation "Time pressure / Procrastination", the score 38 and hence
    the level intermediate, [should_proceed] is true, and the response
    opens with the intermediate template for genuine motivation, followed
    by the four strategic questions. *)
Theorem essay_request_of_new_user (self : MVG.t) (uid : string)
    (clock : Clock) :
  MVG.user_memories self !! uid = None ->
  let r := fst (MVG.process_request self essay_query uid clock) in
  intent_surface (metadata r) = "Request for complete solution"
  /\ intent_motivation (metadata r) = "Time pressure / Procrastination"
  /\ capability_score (metadata r) = 38
  /\ capability_level (metadata r) = level_value INTERMEDIATE
  /\ ethical_should_proceed (metadata r) = true
  /\ response r = essay_reply
  /\ Py.startswith
       (GrowthResponseDesigner.dict_get
          GrowthResponseDesigner.INTERMEDIATE_TEMPLATES "genuine" "")
       (response r) = true.
Proof.
  intros Hnew. cbv zeta. unfold MVG.process_request.
  rewrite (stages_new_user _ _ _ _ Hnew). cbn [fst].
  repeat apply conj; vm_compute; reflexivity.
Qed.

Lemma essay_request_of_new_user_witness :
  response (fst (MVG.process_request MVG.init essay_query "student_001"
                   sample_clock)) = essay_reply.
Proof.
  apply (essay_request_of_new_user MVG.init "student_001" sample_clock).
  reflexivity.
Defined.

(** C4 as stated fails: the level of that request is not beginner, and
    its response opens with none of the beginner templates. *)
Lemma essay_request_is_not_beginner :
  let r := fst (MVG.process_request MVG.init essay_query "student_001"
                  sample_clock) in
  capability_level (metadata r) = "intermediate"
  /\ capability_level (metadata r) <> level_value BEGINNER
  /\ existsb (fun kv => Py.startswith (snd kv) (response r))
       GrowthResponseDesigner.BEGINNER_TEMPLATES = false.
Proof.
  cbv zeta. repeat apply conj; [reflexivity | | reflexivity].
  intros H. vm_compute in H. discriminate H.
Qed.

(** ** The response designer and the memory *)

Section Designer.
Import GrowthResponseDesigner.
Variables (intent : Intent) (capability : CapabilityAssessment)
  (verdict : EthicalVerdict) (now : datetime).

Lemma create_blocked (memory : option UserMemory) :
  should_proceed verdict = false ->
  create intent capability verdict memory now
  = (_create_redirect_response intent verdict, memory).
Proof. intros H. unfold create. now rewrite H. Qed.

Lemma create_memory (m : UserMemory) :
  snd (create intent capability verdict (Some m) now)
  = Some (if should_proceed verdict
          then record_interaction intent capability now m else m).
Proof. unfold create. now destruct (should_proceed verdict). Qed.

End Designer.

(** ** One request, stage by stage *)

Lemma memory_of_lookup (self : MVG.t) (uid : string) :
  Run.memory_of self uid
  = match MVG.user_memories self !! uid with
    | Some m => m
    | None => new_memory uid
    end.
Proof.
  unfold Run.memory_of, MVG.get_or_create_user_memory.
  now destruct (MVG.user_memories self !! uid).
Qed.

Section Request.
Variables (self : MVG.t) (user_query uid : string) (clock : Clock).

Let memory := Run.memory_of self uid.
Let tr := MVG.stages self user_query uid clock.

(** The stages in terms of the four components. *)
Lemma stages_eq :
  tr
  = let intent := IntentAnalyzer.analyze user_query (Some memory) in
    let capability := CapabilityAssessor.assess user_query (Some memory) in
    let verdict := EthicalGuardian.evaluate intent (Some memory) in
    let created :=
      GrowthResponseDesigner.create intent capability verdict (Some memory)
        (designer_now clock) in
    let memory1 :=
      match snd created with Some m => m | None => memory end in
    {| MVG.memory_before := memory;
       MVG.intent := intent;
       MVG.capability := capability;
       MVG.ethical_verdict := verdict;
       MVG.growth_response := fst created;
       MVG.memory_after_designer := memory1;
       MVG.memory_after :=
         MVG.log_interaction
           {| ctx_query := user_query;
              ctx_response := response_text (fst created);
              ctx_capability_level := level_value (level capability);
              ctx_capability_score := score capability;
              ctx_timestamp := context_now_iso clock |} memory1 |}.
Proof.
  subst tr memory. unfold MVG.stages, Run.memory_of.
  destruct (MVG.get_or_create_user_memory self uid) as [m self'].
  cbv zeta. cbn [fst].
  destruct (GrowthResponseDesigner.create _ _ _ _ _) as [r designed].
  reflexivity.
Qed.

Lemma stages_memory_before : MVG.memory_before tr = memory.
Proof. now rewrite stages_eq. Qed.

Lemma stages_intent :
  MVG.intent tr = IntentAnalyzer.analyze user_query (Some memory).
Proof. now rewrite stages_eq. Qed.

Lemma stages_capability :
  MVG.capability tr = CapabilityAssessor.assess user_query (Some memory).
Proof. now rewrite stages_eq. Qed.

Lemma stages_ethical_verdict :
  MVG.ethical_verdict tr
  = EthicalGuardian.evaluate (MVG.intent tr) (Some memory).
Proof. now rewrite stages_eq. Qed.

Lemma stages_growth_response :
  MVG.growth_response tr
  = fst (GrowthResponseDesigner.create (MVG.intent tr) (MVG.capability tr)
           (MVG.ethical_verdict tr) (Some memory) (designer_now clock)).
Proof. now rewrite stages_eq. Qed.

(** What the designer does to the memory, by the verdict. *)
Lemma memory_after_designer_cases :
  MVG.memory_after_designer tr
  = if should_proceed (MVG.ethical_verdict tr)
    then GrowthResponseDesigner.record_interaction (MVG.intent tr)
           (MVG.capability tr) (designer_now clock) memory
    else memory.
Proof.
  rewrite stages_eq. cbv zeta.
  cbn [MVG.memory_after_designer MVG.ethical_verdict MVG.intent
       MVG.capability].
  now rewrite create_memory.
Qed.

Lemma stages_memory_after :
  MVG.memory_after tr
  = MVG.log_interaction
      {| ctx_query := user_query;
         ctx_response := response_text (MVG.growth_response tr);
         ctx_capability_level := level_value (level (MVG.capability tr));
         ctx_capability_score := score (MVG.capability tr);
         ctx_timestamp := context_now_iso clock |}
      (MVG.memory_after_designer tr).
Proof. now rewrite stages_eq. Qed.

Lemma process_request_result_proceed :
  ethical_should_proceed
    (metadata (fst (MVG.process_request self user_query uid clock)))
  = should_proceed (MVG.ethical_verdict tr).
Proof. reflexivity. Qed.

Lemma process_request_result_user :
  meta_user_id
    (metadata (fst (MVG.process_request self user_query uid clock)))
  = uid.
Proof. reflexivity. Qed.

Lemma process_request_memory (uid' : string) :
  Run.memory_of (snd (MVG.process_request self user_query uid clock)) uid'
  = if decide (uid = uid') then MVG.memory_after tr
    else Run.memory_of self uid'.
Proof.
  rewrite !memory_of_lookup. unfold MVG.process_request.
  cbn [snd MVG.user_memories]. rewrite lookup_insert.
  now destruct (decide (uid = uid')).
Qed.

End Request.

(** ** Blocked requests *)

Lemma generate_redirect_not_empty (intent : Intent) (concerns : list string) :
  EthicalGuardian._generate_redirect intent concerns <> EmptyString.
Proof.
  unfold EthicalGuardian._generate_redirect.
  repeat match goal with
         | |- context [if Py.mem ?c concerns then _ else _] =>
             destruct (Py.mem c concerns)
         end;
    (intros H; apply (f_equal String.length) in H; vm_compute in H;
     discriminate H).
Qed.

Lemma evaluate_redirect (intent : Intent) (memory : option UserMemory) :
  should_proceed (EthicalGuardian.evaluate intent memory) = false ->
  exists text,
    redirect_suggestion (EthicalGuardian.evaluate intent memory) = Some text
    /\ text <> EmptyString.
Proof.
  intros Hblocked.
  exists (EthicalGuardian._generate_redirect intent
            (concerns (EthicalGuardian.evaluate intent memory))).
  split; [| apply generate_redirect_not_empty].
  change (redirect_suggestion (EthicalGuardian.evaluate intent memory))
    with (if negb (should_proceed (EthicalGuardian.evaluate intent memory))
          then Some (EthicalGuardian._generate_redirect intent
                       (concerns (EthicalGuardian.evaluate intent memory)))
          else None).
  now rewrite Hblocked.
Qed.

Lemma or_else_text (text fallback : string) :
  text <> EmptyString -> Py.or_else (Some text) fallback = text.
Proof. now destruct text. Qed.

(** C6, as the code has it.  Whenever [should_proceed] is false,
    [create] leaves the memory as it is (so its interaction count,
    capability trend, request history and last interaction are
    unchanged) and returns as response text the redirect text of the
    verdict when there is one and it is not empty, and the fixed text
    "I need to pause here." otherwise.  On that path within
    [process_request] the response is the redirect text of the verdict,
    which is never empty there, and the only change to the memory is the
    record appended to its conversation context. *)
Theorem blocked_request_effects :
  (forall intent capability verdict memory now,
      should_proceed verdict = false ->
      let created :=
        GrowthResponseDesigner.create intent capability verdict memory now in
      snd created = memory
      /\ (forall text,
             redirect_suggestion verdict = Some text ->
             text <> EmptyString ->
             response_text (fst created) = text)
      /\ (redirect_suggestion verdict = None
          \/ redirect_suggestion verdict = Some EmptyString ->
          response_text (fst created) = "I need to pause here."))
  /\ (forall self user_query uid clock,
        let tr := MVG.stages self user_query uid clock in
        let done := MVG.process_request self user_query uid clock in
        let m := Run.memory_of self uid in
        let m' := Run.memory_of (snd done) uid in
        should_proceed (MVG.ethical_verdict tr) = false ->
        redirect_suggestion (MVG.ethical_verdict tr)
        = Some (response (fst done))
        /\ response (fst done) <> EmptyString
        /\ interaction_count m' = interaction_count m
        /\ capability_trend m' = capability_trend m
        /\ request_history m' = request_history m
        /\ last_interaction m' = last_interaction m
        /\ m' = MVG.log_interaction
                  {| ctx_query := user_query;
                     ctx_response := response (fst done);
                     ctx_capability_level :=
                       level_value (level (MVG.capability tr));
                     ctx_capability_score := score (MVG.capability tr);
                     ctx_timestamp := context_now_iso clock |} m).
Proof.
  split.
  - intros intent capability verdict memory now Hblocked. cbv zeta.
    rewrite (create_blocked _ _ _ _ _ Hblocked). cbn [fst snd].
    unfold GrowthResponseDesigner._create_redirect_response.
    cbn [response_text].
    split; [reflexivity | split].
    + intros text -> Htext. now apply or_else_text.
    + now intros [-> | ->].
  - intros self user_query uid clock. cbv zeta. intros Hblocked.
    assert (Hresp :
      response (fst (MVG.process_request self user_query uid clock))
      = response_text
          (MVG.growth_response (MVG.stages self user_query uid clock)))
      by reflexivity.
    assert (Hm' :
      Run.memory_of (snd (MVG.process_request self user_query uid clock)) uid
      = MVG.log_interaction
          {| ctx_query := user_query;
             ctx_response :=
               response (fst (MVG.process_request self user_query uid clock));
             ctx_capability_level :=
               level_value
                 (level (MVG.capability
                           (MVG.stages self user_query uid clock)));
             ctx_capability_score :=
               score (MVG.capability (MVG.stages self user_query uid clock));
             ctx_timestamp := context_now_iso clock |}
          (Run.memory_of self uid)).
    { rewrite process_request_memory.
      destruct (decide (uid = uid)) as [_ | Hne]; [| now destruct Hne].
      rewrite stages_memory_after, memory_after_designer_cases, Hblocked.
      now rewrite Hresp. }
    assert (Htext :
      exists text,
        redirect_suggestion
          (MVG.ethical_verdict (MVG.stages self user_query uid clock))
        = Some text /\ text <> EmptyString).
    { rewrite stages_ethical_verdict. apply evaluate_redirect.
      now rewrite <- stages_ethical_verdict. }
    destruct Htext as (text & Hsome & Htext).
    assert (Hresponse :
      response (fst (MVG.process_request self user_query uid clock)) = text).
    { rewrite Hresp, stages_growth_response.
      rewrite (create_blocked _ _ _ _ _ Hblocked). cbn [fst].
      unfold GrowthResponseDesigner._create_redirect_response.
      cbn [response_text]. rewrite Hsome. now apply or_else_text. }
    rewrite Hm', Hresponse.
    repeat apply conj; try reflexivity; assumption.
Qed.

Lemma blocked_request_effects_witness :
  redirect_suggestion
    (MVG.ethical_verdict
       (MVG.stages MVG.init sabotage_query "student_001" sample_clock))
  = Some (response
            (fst (MVG.process_request MVG.init sabotage_query "student_001"
                    sample_clock))).
Proof.
  apply (proj2 blocked_request_effects MVG.init sabotage_query
           "student_001" sample_clock).
  reflexivity.
Defined.

(** C6 as stated fails: a blocking verdict without a redirect, or with an
    empty one, is answered by a fixed text and not by its redirect. *)
Lemma blocked_without_redirect_text :
  let capability := CapabilityAssessor.assess sabotage_query None in
  let answer verdict :=
    response_text
      (fst (GrowthResponseDesigner.create dependent_intent capability
              verdict None 0)) in
  should_proceed verdict_without_redirect = false
  /\ redirect_suggestion verdict_without_redirect = None
  /\ answer verdict_without_redirect = "I need to pause here."
  /\ should_proceed verdict_with_empty_redirect = false
  /\ redirect_suggestion verdict_with_empty_redirect = Some EmptyString
  /\ answer verdict_with_empty_redirect = "I need to pause here."
  /\ redirect_suggestion verdict_with_empty_redirect
     <> Some (answer verdict_with_empty_redirect).
Proof.
  cbv zeta. repeat apply conj; try reflexivity.
  intros H. vm_compute in H. discriminate H.
Qed.

(** ** Runs: what the calls of one user add up to *)

Lemma run_cons (self : MVG.t) (c : Call) (calls : list Call) :
  Run.run self (c :: calls)
  = let done :=
      MVG.process_request self (call_query c) (call_user c) (call_clock c) in
    (fst (Run.run (snd done) calls), fst done :: snd (Run.run (snd done) calls)).
Proof.
  cbn [Run.run].
  destruct (MVG.process_request _ _ _ _) as [r self'].
  cbv zeta. cbn [fst snd].
  now destruct (Run.run self' calls).
Qed.

Lemma proceeded_count_cons (uid : string) (r : Result) (rs : list Result) :
  Run.proceeded_count uid (r :: rs)
  = (if Run.proceeded_for uid r then 1 else 0) + Run.proceeded_count uid rs.
Proof.
  unfold Run.proceeded_count. cbn [List.filter].
  destruct (Run.proceeded_for uid r); cbn [length]; lia.
Qed.

Lemma memory_of_init (uid : string) :
  Run.memory_of MVG.init uid = new_memory uid.
Proof.
  rewrite memory_of_lookup. cbn [MVG.init MVG.user_memories].
  now rewrite lookup_empty.
Qed.

Section Step.
Variables (self : MVG.t) (user_query uid : string) (clock : Clock).

Let tr := MVG.stages self user_query uid clock.
Let memory := Run.memory_of self uid.
Let proceeds := should_proceed (MVG.ethical_verdict tr).

Lemma memory_after_interaction_count :
  interaction_count (MVG.memory_after tr)
  = interaction_count memory + (if proceeds then 1 else 0).
Proof.
  subst tr memory proceeds.
  rewrite stages_memory_after, memory_after_designer_cases.
  unfold MVG.log_interaction, GrowthResponseDesigner.record_interaction.
  destruct (should_proceed _); cbn [interaction_count]; lia.
Qed.

Lemma memory_after_request_history :
  request_history (MVG.memory_after tr)
  = request_history memory
    ++ (if proceeds then [surface_request (MVG.intent tr)] else []).
Proof.
  subst tr memory proceeds.
  rewrite stages_memory_after, memory_after_designer_cases.
  unfold MVG.log_interaction, GrowthResponseDesigner.record_interaction.
  destruct (should_proceed _); cbn [request_history capability_trend];
    [reflexivity | now rewrite app_nil_r].
Qed.

Lemma memory_after_capability_trend :
  capability_trend (MVG.memory_after tr)
  = capability_trend memory
    ++ (if proceeds then [score (MVG.capability tr)] else []).
Proof.
  subst tr memory proceeds.
  rewrite stages_memory_after, memory_after_designer_cases.
  unfold MVG.log_interaction, GrowthResponseDesigner.record_interaction.
  destruct (should_proceed _); cbn [request_history capability_trend];
    [reflexivity | now rewrite app_nil_r].
Qed.

Lemma proceeded_for_result (uid' : string) :
  Run.proceeded_for uid'
    (fst (MVG.process_request self user_query uid clock))
  = bool_decide (uid = uid') && proceeds.
Proof.
  unfold Run.proceeded_for.
  rewrite process_request_result_user, process_request_result_proceed.
  f_equal. destruct (String.eqb_spec uid uid') as [-> | Hne].
  - now rewrite bool_decide_eq_true_2.
  - now rewrite bool_decide_eq_false_2.
Qed.

End Step.

(** The counters of a user after a run, from those before it. *)
Lemma run_counters (calls : list Call) :
  forall (self : MVG.t) (uid : string),
    let final := fst (Run.run self calls) in
    let n := Run.proceeded_count uid (snd (Run.run self calls)) in
    interaction_count (Run.memory_of final uid)
    = interaction_count (Run.memory_of self uid) + n
    /\ exists requests scores,
        request_history (Run.memory_of final uid)
        = request_history (Run.memory_of self uid) ++ requests
        /\ capability_trend (Run.memory_of final uid)
           = capability_trend (Run.memory_of self uid) ++ scores
        /\ Z.of_nat (length requests) = n
        /\ Z.of_nat (length scores) = n.
Proof.
  induction calls as [| c calls IH]; intros self uid; cbv zeta.
  - cbn [Run.run fst snd].
    change (Run.proceeded_count uid []) with 0.
    split; [lia |]. exists [], []. now rewrite !app_nil_r.
  - rewrite run_cons. cbv zeta. cbn [fst snd].
    specialize (IH (snd (MVG.process_request self (call_query c)
                           (call_user c) (call_clock c))) uid).
    cbv zeta in IH. destruct IH as (Hcount & requests & scores & Hreq & Htrend
                                    & Hnreq & Hnscores).
    rewrite proceeded_count_cons, proceeded_for_result.
    rewrite Hcount, Hreq, Htrend, process_request_memory.
    destruct (decide (call_user c = uid)) as [<- | Hne].
    + rewrite bool_decide_eq_true_2 by reflexivity. cbn [andb].
      rewrite memory_after_interaction_count, memory_after_request_history,
        memory_after_capability_trend.
      split; [lia |].
      rewrite <- !app_assoc.
      eexists _, _. split; [reflexivity | split; [reflexivity |]].
      rewrite !length_app.
      destruct (should_proceed _); cbn [length]; lia.
    + rewrite bool_decide_eq_false_2 by assumption. cbn [andb].
      split; [lia |]. exists requests, scores. auto.
Qed.

(** On a new system the counters of a user are the numbers of that
    user's non-blocked calls. *)
Lemma run_counters_init (calls : list Call) (uid : string) :
  interaction_count (Run.memory_of (fst (Run.run MVG.init calls)) uid)
  = Run.proceeded_count uid (snd (Run.run MVG.init calls))
  /\ Z.of_nat
       (length (capability_trend
                  (Run.memory_of (fst (Run.run MVG.init calls)) uid)))
     = Run.proceeded_count uid (snd (Run.run MVG.init calls)).
Proof.
  destruct (run_counters calls MVG.init uid)
    as (Hcount & requests & scores & _ & Htrend & _ & Hscores).
  rewrite Hcount, Htrend, memory_of_init.
  cbn [new_memory interaction_count capability_trend app]. split; lia.
Qed.

(** C7.  After a run of calls on a new system, the interaction count of
    every user and the length of that user's capability trend both equal
    the number of non-blocked calls the user made.  Request history and
    capability trend only grow at the end: whatever calls are made from
    whatever state, and whatever the designer is given, the earlier
    entries stay in place as a prefix. *)
Theorem counters_follow_proceeded_calls :
  (forall (calls : list Call) (uid : string),
      let final := fst (Run.run MVG.init calls) in
      let n := Run.proceeded_count uid (snd (Run.run MVG.init calls)) in
      interaction_count (Run.memory_of final uid) = n
      /\ Z.of_nat (length (capability_trend (Run.memory_of final uid))) = n)
  /\ (forall (self : MVG.t) (calls : list Call) (uid : string),
        let final := fst (Run.run self calls) in
        exists requests scores,
          request_history (Run.memory_of final uid)
          = request_history (Run.memory_of self uid) ++ requests
          /\ capability_trend (Run.memory_of final uid)
             = capability_trend (Run.memory_of self uid) ++ scores)
  /\ (forall intent capability verdict (m : UserMemory) now,
        exists m' requests scores,
          snd (GrowthResponseDesigner.create intent capability verdict
                 (Some m) now) = Some m'
          /\ request_history m' = request_history m ++ requests
          /\ capability_trend m' = capability_trend m ++ scores).
Proof.
  repeat apply conj.
  - intros calls uid. cbv zeta. apply run_counters_init.
  - intros self calls uid. cbv zeta.
    destruct (run_counters calls self uid)
      as (_ & requests & scores & Hreq & Htrend & _).
    now exists requests, scores.
  - intros intent capability verdict m now.
    rewrite create_memory. destruct (should_proceed verdict).
    + now eexists _, [_], [_].
    + exists m, [], []. now rewrite !app_nil_r.
Qed.

(** C9.  The interaction number a call reports is the interaction count
    of the memory as the response designer left it, plus one.  On a
    non-blocked call the designer has already counted the call, so the
    Nth non-blocked call of a user reports N + 1 (the first one 2); a
    blocked call reports the number of earlier non-blocked calls plus
    one, and only a blocked call does. *)
Theorem interaction_number_is_one_ahead (calls : list Call)
    (user_query uid : string) (clock : Clock) :
  let self := fst (Run.run MVG.init calls) in
  let prior := Run.proceeded_count uid (snd (Run.run MVG.init calls)) in
  let tr := MVG.stages self user_query uid clock in
  let r := fst (MVG.process_request self user_query uid clock) in
  interaction_number (metadata r)
  = interaction_count (MVG.memory_after_designer tr) + 1
  /\ interaction_count (MVG.memory_before tr) = prior
  /\ (ethical_should_proceed (metadata r) = true ->
      interaction_count (MVG.memory_after_designer tr) = prior + 1
      /\ interaction_number (metadata r) = (prior + 1) + 1)
  /\ (ethical_should_proceed (metadata r) = true -> prior = 0 ->
      interaction_number (metadata r) = 2)
  /\ (ethical_should_proceed (metadata r) = false ->
      interaction_number (metadata r) = prior + 1)
  /\ (interaction_number (metadata r) = prior + 1
      <-> ethical_should_proceed (metadata r) = false).
Proof.
  cbv zeta.
  set (self := fst (Run.run MVG.init calls)).
  set (prior := Run.proceeded_count uid (snd (Run.run MVG.init calls))).
  assert (Hprior : interaction_count (Run.memory_of self uid) = prior).
  { apply run_counters_init. }
  assert (Hnumber :
    interaction_number
      (metadata (fst (MVG.process_request self user_query uid clock)))
    = interaction_count
        (MVG.memory_after_designer (MVG.stages self user_query uid clock))
      + 1).
  { change (interaction_number
              (metadata (fst (MVG.process_request self user_query uid clock))))
      with (interaction_count
              (MVG.memory_after (MVG.stages self user_query uid clock)) + 1).
    now rewrite stages_memory_after. }
  rewrite Hnumber, process_request_result_proceed, stages_memory_before,
    memory_after_designer_cases.
  destruct (should_proceed _);
    unfold GrowthResponseDesigner.record_interaction;
    cbn [interaction_count]; rewrite Hprior;
    repeat apply conj; intros; try discriminate; lia.
Qed.

Lemma interaction_number_is_one_ahead_witness :
  interaction_number
    (metadata (fst (MVG.process_request (fst (Run.run MVG.init []))
                      essay_query "student_001" sample_clock))) = 2.
Proof.
  pose proof (interaction_number_is_one_ahead [] essay_query "student_001"
                sample_clock) as H.
  cbv zeta in H. destruct H as (_ & _ & _ & H & _).
  apply H; reflexivity.
Defined.

(** ** The repetitive-dependency flag *)

Lemma extract_surface_request_label (query : string) :
  In (IntentAnalyzer._extract_surface_request query) surface_labels.
Proof.
  unfold IntentAnalyzer._extract_surface_request, surface_labels.
  cbv zeta.
  repeat match goal with
         | |- context [if Re.search_ignorecase ?r ?s then _ else _] =>
             destruct (Re.search_ignorecase r s)
         end;
    cbn [In]; auto 10.
Qed.

Lemma surface_labels_have_upper :
  Forall (fun l => has_upper l = true) surface_labels.
Proof. repeat constructor. Qed.

Lemma label_is_not_lower_case (label query : string) :
  In label surface_labels -> label <> Py.lower query.
Proof.
  intros Hin ->.
  pose proof surface_labels_have_upper as Hup.
  rewrite List.Forall_forall in Hup. specialize (Hup _ Hin).
  now rewrite lower_has_no_upper in Hup.
Qed.

Lemma In_last_n {A} (k : nat) (x : A) (ls : list A) :
  In x (Py.last_n k ls) -> In x ls.
Proof.
  unfold Py.last_n. intros Hin.
  rewrite <- (firstn_skipn (length ls - k) ls).
  apply in_or_app. now right.
Qed.

Lemma asked_recently_labels (query : string) (m : UserMemory) :
  Forall (fun r => In r surface_labels) (request_history m) ->
  IntentAnalyzer.asked_recently (Py.lower query) (Some m) = false.
Proof.
  intros Hlabels. unfold IntentAnalyzer.asked_recently.
  apply andb_false_intro2.
  destruct (Py.mem _ _) eqn:Hmem; [| reflexivity].
  apply mem_In, In_last_n in Hmem.
  rewrite List.Forall_forall in Hlabels.
  now destruct (label_is_not_lower_case _ query (Hlabels _ Hmem)).
Qed.

Lemma repetitive_flag_only_if_asked_recently (query surface : string)
    (memory : option UserMemory) :
  IntentAnalyzer.asked_recently (Py.lower query) memory = false ->
  ~ In "repetitive_dependency"
      (IntentAnalyzer._detect_ethical_flags query surface memory).
Proof.
  intros Hnot. unfold IntentAnalyzer._detect_ethical_flags. cbv zeta.
  rewrite Hnot, app_nil_r, !in_app_iff.
  intros H.
  repeat match type of H with
         | _ \/ _ => destruct H as [H | H]
         end;
    match type of H with
    | In _ (if ?b then _ else _) =>
        destruct b; cbn [In] in H;
        [destruct H as [H | []]; discriminate H | destruct H]
    end.
Qed.

(** In every state a run on a new system leads to, the request history
    of every user holds surface labels only. *)
Lemma run_request_history_labels (calls : list Call) :
  forall (self : MVG.t),
    (forall uid,
        Forall (fun r => In r surface_labels)
               (request_history (Run.memory_of self uid))) ->
    forall uid,
      Forall (fun r => In r surface_labels)
             (request_history (Run.memory_of (fst (Run.run self calls)) uid)).
Proof.
  induction calls as [| c calls IH]; intros self Hself uid.
  - apply Hself.
  - rewrite run_cons. cbv zeta. cbn [fst]. apply IH. clear uid.
    intros uid. rewrite process_request_memory.
    destruct (decide (call_user c = uid)) as [_ | _]; [| apply Hself].
    rewrite memory_after_request_history. apply Forall_app. split.
    + apply Hself.
    + destruct (should_proceed _); constructor; [| constructor].
      rewrite stages_intent. apply extract_surface_request_label.
Qed.

Lemma init_request_history_labels (uid : string) :
  Forall (fun r => In r surface_labels)
         (request_history (Run.memory_of MVG.init uid)).
Proof. rewrite memory_of_init. constructor. Qed.

(** C10, as the code has it.  In a memory reached through calls of
    [process_request] alone the request history holds only the seven
    surface labels, each of which has an upper-case letter, while a
    lower-cased query has none; so the test for a recently repeated
    request fails, "repetitive_dependency" is not among the flags of the
    intent, and the guardian's dependency check never takes the branch
    that this flag opens. *)
Theorem repetitive_dependency_never_flagged (calls : list Call)
    (user_query uid : string) (clock : Clock) :
  let self := fst (Run.run MVG.init calls) in
  let m := Run.memory_of self uid in
  let tr := MVG.stages self user_query uid clock in
  length surface_labels = 7%nat
  /\ Forall (fun l => has_upper l = true) surface_labels
  /\ Forall (fun r => In r surface_labels) (request_history m)
  /\ has_upper (Py.lower user_query) = false
  /\ IntentAnalyzer.asked_recently (Py.lower user_query) (Some m) = false
  /\ ~ In "repetitive_dependency" (ethical_flags (MVG.intent tr))
  /\ Py.mem "repetitive_dependency" (ethical_flags (MVG.intent tr)) = false
  /\ creates_dependency (MVG.ethical_verdict tr)
     = ((10 <? interaction_count m)
        && Py.int_gt_float (EthicalGuardian.shortcut_pattern m)
             (Py.float_mul (Py.float_of_int (interaction_count m)) Py.f0_6)
        || Py.mem "potential_dependency_creation"
             (ethical_flags (MVG.intent tr))).
Proof.
  cbv zeta.
  set (self := fst (Run.run MVG.init calls)).
  assert (Hlabels :
    Forall (fun r => In r surface_labels)
           (request_history (Run.memory_of self uid)))
    by apply run_request_history_labels, init_request_history_labels.
  assert (Hrecent :
    IntentAnalyzer.asked_recently (Py.lower user_query)
      (Some (Run.memory_of self uid)) = false)
    by now apply asked_recently_labels.
  assert (Hflag :
    ~ In "repetitive_dependency"
        (ethical_flags (MVG.intent (MVG.stages self user_query uid clock)))).
  { rewrite stages_intent, analyze_ethical_flags.
    now apply repetitive_flag_only_if_asked_recently. }
  assert (Hmem :
    Py.mem "repetitive_dependency"
      (ethical_flags (MVG.intent (MVG.stages self user_query uid clock)))
    = false).
  { destruct (Py.mem _ _) eqn:H; [| reflexivity].
    now apply mem_In in H. }
  repeat apply conj; try assumption.
  - reflexivity.
  - apply surface_labels_have_upper.
  - apply lower_has_no_upper.
  - rewrite stages_ethical_verdict, evaluate_creates_dependency.
    unfold EthicalGuardian._check_dependency. cbv zeta. rewrite Hmem.
    now destruct (_ && _).
Qed.

(** C10 as stated fails on the number of labels: one user can collect
    seven different entries in the request history, which no set of six
    labels holds. *)
Lemma request_history_with_seven_labels :
  let m := Run.memory_of (fst (Run.run MVG.init seven_calls)) "student_001" in
  request_history m = surface_labels
  /\ List.NoDup (request_history m)
  /\ length (request_history m) = 7%nat
  /\ (forall six : list string,
        length six = 6%nat ->
        ~ Forall (fun r => In r six) (request_history m)).
Proof.
  cbv zeta.
  assert (Hhistory :
    request_history
      (Run.memory_of (fst (Run.run MVG.init seven_calls)) "student_001")
    = surface_labels) by (vm_compute; reflexivity).
  rewrite Hhistory.
  assert (Hnodup : List.NoDup surface_labels).
  { unfold surface_labels.
    repeat (apply List.NoDup_cons;
            [cbn [In]; intros H; repeat destruct H as [H | H];
             try discriminate H; exact H |]).
    apply List.NoDup_nil. }
  repeat apply conj; [reflexivity | exact Hnodup | reflexivity |].
  intros six Hsix Hall.
  rewrite List.Forall_forall in Hall.
  pose proof (NoDup_incl_length Hnodup Hall) as Hle.
  rewrite Hsix in Hle. cbn in Hle. lia.
Qed.

(* ================================================================= *)
(** * Further properties of the pipeline *)

(** ** Word groups as substring tests *)

Lemma literal_startswith (w s : string) :
  match Re.literal false w s with Some _ => true | None => false end
  = Py.startswith w s.
Proof.
  revert s. induction w as [| a w IH]; intros s; [reflexivity |].
  destruct s as [| b s]; [reflexivity |]. cbn [Re.literal Py.startswith].
  destruct (Ascii.eqb a b); [apply IH | reflexivity].
Qed.

Lemma matches_here_words (ws : list string) (s : string) :
  Re.matches_here false (Re.Words ws) s
  = existsb (fun w => Py.startswith w s) ws.
Proof.
  unfold Re.matches_here. cbn [Re.match_here].
  induction ws as [| w ws IH]; [reflexivity |].
  cbn [flat_map existsb]. rewrite <- literal_startswith.
  destruct (Re.literal false w s); [reflexivity | exact IH].
Qed.

Lemma existsb_orb {A} (f g : A -> bool) (ls : list A) :
  existsb (fun x => f x || g x) ls = existsb f ls || existsb g ls.
Proof.
  induction ls as [| x ls IH]; [reflexivity |]. cbn [existsb]. rewrite IH.
  destruct (f x), (g x), (existsb f ls), (existsb g ls); reflexivity.
Qed.

Lemma existsb_pointwise {A} (f g : A -> bool) (ls : list A) :
  (forall x, f x = g x) -> existsb f ls = existsb g ls.
Proof.
  intros Hfg. induction ls as [| x ls IH]; [reflexivity |].
  cbn [existsb]. now rewrite Hfg, IH.
Qed.

(** [re.search("(w1|w2|...)", s)] finds a match exactly when one of the
    words occurs in [s]. *)
Lemma search_words (ws : list string) (s : string) :
  Re.search (Re.Words ws) s = Py.any_in ws s.
Proof.
  unfold Re.search, Py.any_in.
  induction s as [| c s IH].
  - cbn [Re.search_flags Py.contains]. rewrite matches_here_words.
    rewrite orb_false_r. apply existsb_pointwise. intros w.
    now rewrite orb_false_r.
  - cbn [Re.search_flags]. rewrite matches_here_words, IH.
    rewrite <- existsb_orb. apply existsb_pointwise. intros w. reflexivity.
Qed.

Lemma search_words_of_contains (ws : list string) (w s : string) :
  In w ws -> Py.contains w s = true -> Re.search (Re.Words ws) s = true.
Proof.
  intros Hin Hw. rewrite search_words. unfold Py.any_in.
  apply existsb_exists. now exists w.
Qed.

(** ** The flags of a request, pattern by pattern *)

Lemma flags_of_conditions (b1 b2 b3 b4 b5 b6 : bool) :
  let flags :=
    (if b1 then ["potential_dependency_creation"] else [])
    ++ (if b2 then ["deception_intent"] else [])
    ++ (if b3 then ["potential_harm"] else [])
    ++ (if b4 then ["bias_or_discrimination"] else [])
    ++ (if b5 then ["coercion_pressure"] else [])
    ++ (if b6 then ["repetitive_dependency"] else []) in
  Py.mem "potential_dependency_creation" flags = b1
  /\ Py.mem "deception_intent" flags = b2
  /\ Py.mem "potential_harm" flags = b3
  /\ Py.mem "bias_or_discrimination" flags = b4
  /\ Py.mem "coercion_pressure" flags = b5
  /\ Py.mem "repetitive_dependency" flags = b6
  /\ Py.mem "violation_dignity" flags = false
  /\ List.NoDup flags.
Proof.
  destruct b1, b2, b3, b4, b5, b6; cbv zeta; cbn [app];
    repeat apply conj; try reflexivity;
    repeat (apply List.NoDup_cons;
            [cbn [In]; intros H; repeat destruct H as [H | H];
             try discriminate H; exact H |]);
    apply List.NoDup_nil.
Qed.

Lemma detect_ethical_flags_mem (query surface : string)
    (memory : option UserMemory) :
  let flags := IntentAnalyzer._detect_ethical_flags query surface memory in
  let query_lower := Py.lower query in
  Py.mem "potential_dependency_creation" flags
  = (Py.contains "complete solution" (Py.lower surface)
     || Py.contains "shortcut" (Py.lower surface))
  /\ Py.mem "deception_intent" flags
     = Re.search IntentAnalyzer.deception_patterns query_lower
  /\ Py.mem "potential_harm" flags
     = Re.search IntentAnalyzer.harm_patterns query_lower
  /\ Py.mem "bias_or_discrimination" flags
     = Re.search IntentAnalyzer.bias_patterns query_lower
  /\ Py.mem "coercion_pressure" flags
     = Re.search IntentAnalyzer.pressure_patterns query_lower
  /\ Py.mem "repetitive_dependency" flags
     = IntentAnalyzer.asked_recently query_lower memory
  /\ Py.mem "violation_dignity" flags = false
  /\ List.NoDup flags.
Proof. apply flags_of_conditions. Qed.

(** The label says "complete solution" or "shortcut" exactly when the
    direct-solution pattern matched. *)
Lemma surface_label_is_direct (query : string) :
  Py.contains "complete solution"
    (Py.lower (IntentAnalyzer._extract_surface_request query))
  || Py.contains "shortcut"
       (Py.lower (IntentAnalyzer._extract_surface_request query))
  = Re.search_ignorecase IntentAnalyzer.direct_solution (Py.lower query).
Proof.
  unfold IntentAnalyzer._extract_surface_request. cbv zeta.
  repeat match goal with
         | |- context [if Re.search_ignorecase ?r ?s then _ else _] =>
             destruct (Re.search_ignorecase r s)
         end;
    reflexivity.
Qed.

Lemma mem_true_iff (x : string) (ls : list string) (b : bool) :
  Py.mem x ls = b -> (In x ls <-> b = true).
Proof. intros <-. symmetry. apply mem_In. Qed.

(** X1.  The flags of an analyzed request follow the patterns one by
    one: the dependency flag is there exactly when the direct-solution
    pattern matches the lower-cased query, and the deception, harm, bias
    and coercion flags exactly when their own pattern does;
    "violation_dignity" is never raised, and no flag is listed twice. *)
Theorem ethical_flags_by_pattern (user_query : string)
    (memory : option UserMemory) :
  let flags := ethical_flags (IntentAnalyzer.analyze user_query memory) in
  let query_lower := Py.lower user_query in
  (In "potential_dependency_creation" flags
   <-> Re.search_ignorecase IntentAnalyzer.direct_solution query_lower = true)
  /\ (In "deception_intent" flags
      <-> Re.search IntentAnalyzer.deception_patterns query_lower = true)
  /\ (In "potential_harm" flags
      <-> Re.search IntentAnalyzer.harm_patterns query_lower = true)
  /\ (In "bias_or_discrimination" flags
      <-> Re.search IntentAnalyzer.bias_patterns query_lower = true)
  /\ (In "coercion_pressure" flags
      <-> Re.search IntentAnalyzer.pressure_patterns query_lower = true)
  /\ ~ In "violation_dignity" flags
  /\ List.NoDup flags.
Proof.
  cbv zeta. rewrite analyze_ethical_flags.
  destruct (detect_ethical_flags_mem user_query
              (IntentAnalyzer._extract_surface_request user_query) memory)
    as (Hdep & Hdec & Hharm & Hbias & Hpress & _ & Hdig & Hnodup).
  rewrite surface_label_is_direct in Hdep.
  repeat apply conj; try (now apply mem_true_iff); try assumption.
  intros Hin. apply mem_In in Hin. congruence.
Qed.

(** What the guardian's checks see of an analyzed request. *)
Lemma checks_of_analyzed (user_query : string) (memory : option UserMemory) :
  let intent := IntentAnalyzer.analyze user_query memory in
  let query_lower := Py.lower user_query in
  EthicalGuardian._check_harm intent
  = Re.search IntentAnalyzer.harm_patterns query_lower
  /\ EthicalGuardian._check_manipulation intent
     = Re.search IntentAnalyzer.deception_patterns query_lower
  /\ EthicalGuardian._check_dignity intent
     = Re.search IntentAnalyzer.pressure_patterns query_lower
  /\ EthicalGuardian._check_bias intent
     = Re.search IntentAnalyzer.bias_patterns query_lower.
Proof.
  cbv zeta.
  unfold EthicalGuardian._check_harm, EthicalGuardian._check_manipulation,
    EthicalGuardian._check_dignity, EthicalGuardian._check_bias.
  cbn [existsb]. rewrite analyze_ethical_flags.
  destruct (detect_ethical_flags_mem user_query
              (IntentAnalyzer._extract_surface_request user_query) memory)
    as (_ & Hdec & Hharm & Hbias & Hpress & _ & Hdig & _).
  rewrite Hdec, Hharm, Hbias, Hpress, Hdig.
  now rewrite !orb_false_r.
Qed.

(** X2.  Whether a request is blocked is decided by the words of the
    query alone: the verdict on an analyzed request has
    [should_proceed = false] exactly when the lower-cased query matches
    the harm, deception, coercion or bias pattern, whatever the memory
    the analyzer and the guardian are given. *)
Theorem blocked_iff_pattern_matches (user_query : string)
    (memory memory' : option UserMemory) :
  let query_lower := Py.lower user_query in
  should_proceed
    (EthicalGuardian.evaluate (IntentAnalyzer.analyze user_query memory)
       memory')
  = negb (Re.search IntentAnalyzer.harm_patterns query_lower
          || Re.search IntentAnalyzer.deception_patterns query_lower
          || Re.search IntentAnalyzer.pressure_patterns query_lower
          || Re.search IntentAnalyzer.bias_patterns query_lower).
Proof.
  cbv zeta. rewrite evaluate_should_proceed.
  destruct (checks_of_analyzed user_query memory)
    as (-> & -> & -> & ->).
  reflexivity.
Qed.

(** ** The redirect of a blocked request *)

Lemma generate_redirect_ignores_intent (intent intent' : Intent)
    (concerns : list string) :
  EthicalGuardian._generate_redirect intent concerns
  = EthicalGuardian._generate_redirect intent' concerns.
Proof. reflexivity. Qed.

(** The verdict, by the values of the five checks. *)
Lemma evaluate_by_checks (intent : Intent) (memory : option UserMemory) :
  let h := EthicalGuardian._check_harm intent in
  let m := EthicalGuardian._check_manipulation intent in
  let d := EthicalGuardian._check_dependency intent memory in
  let g := EthicalGuardian._check_dignity intent in
  let b := EthicalGuardian._check_bias intent in
  let concerns :=
    (if h then ["Direct harm potential"] else [])
    ++ (if m then ["Manipulation or deception"] else [])
    ++ (if d then ["Creates unhealthy dependency"] else [])
    ++ (if g then ["Violates human dignity"] else [])
    ++ (if b then ["Contains harmful bias or discrimination"] else []) in
  EthicalGuardian.evaluate intent memory
  = {| is_harmful := h; is_manipulative := m; creates_dependency := d;
       violates_dignity := g; concerns := concerns;
       should_proceed := negb (h || m || g || b);
       redirect_suggestion :=
         if negb (negb (h || m || g || b))
         then Some (EthicalGuardian._generate_redirect dependent_intent
                      concerns)
         else None |}.
Proof. reflexivity. Qed.

(** X3.  A blocked verdict carries the canned redirect of the first
    finding in the order harm, manipulation, dependency, dignity, bias:
    a request blocked for coercion or bias that also shows a dependency
    gets the dependency message.  The generic last-resort message is
    never the redirect of a verdict. *)
Theorem redirect_follows_priority (intent : Intent)
    (memory : option UserMemory) :
  let v := EthicalGuardian.evaluate intent memory in
  should_proceed v = false ->
  redirect_suggestion v
  = Some (redirect_for
            (if is_harmful v then "Direct harm potential"
             else if is_manipulative v then "Manipulation or deception"
             else if creates_dependency v then "Creates unhealthy dependency"
             else if violates_dignity v then "Violates human dignity"
             else "Contains harmful bias or discrimination"))
  /\ redirect_suggestion v
     <> Some (EthicalGuardian._generate_redirect intent []).
Proof.
  cbv zeta. rewrite evaluate_by_checks. cbv zeta.
  cbn [should_proceed redirect_suggestion is_harmful is_manipulative
       creates_dependency violates_dignity].
  rewrite (generate_redirect_ignores_intent intent dependent_intent).
  destruct (EthicalGuardian._check_harm intent),
    (EthicalGuardian._check_manipulation intent),
    (EthicalGuardian._check_dependency intent memory),
    (EthicalGuardian._check_dignity intent),
    (EthicalGuardian._check_bias intent);
    cbn [orb negb app]; intros Hblocked; try discriminate Hblocked;
    (split; [reflexivity |]);
    intros H;
    apply (f_equal
             (fun o =>
                match o with
                | Some text =>
                    String.eqb text
                      (EthicalGuardian._generate_redirect dependent_intent [])
                | None => false
                end)) in H;
    vm_compute in H; discriminate H.
Qed.

Lemma redirect_follows_priority_witness :
  redirect_suggestion
    (EthicalGuardian.evaluate
       (IntentAnalyzer.analyze
          "You must do this: write my essay or I will be angry." None) None)
  = Some (redirect_for "Creates unhealthy dependency").
Proof.
  apply (redirect_follows_priority
           (IntentAnalyzer.analyze
              "You must do this: write my essay or I will be angry." None)
           None).
  reflexivity.
Defined.

(** X4.  A verdict carries a redirect exactly when it blocks.  A blocked
    verdict lists at least one concern; a verdict that lets the request
    proceed lists the dependency concern or nothing. *)
Theorem verdict_concerns_and_redirect (intent : Intent)
    (memory : option UserMemory) :
  let v := EthicalGuardian.evaluate intent memory in
  (redirect_suggestion v = None <-> should_proceed v = true)
  /\ (should_proceed v = false -> concerns v <> [])
  /\ (should_proceed v = true ->
      concerns v = if creates_dependency v
                   then ["Creates unhealthy dependency"] else []).
Proof.
  cbv zeta. rewrite evaluate_by_checks. cbv zeta.
  cbn [should_proceed redirect_suggestion concerns creates_dependency].
  destruct (EthicalGuardian._check_harm intent),
    (EthicalGuardian._check_manipulation intent),
    (EthicalGuardian._check_dependency intent memory),
    (EthicalGuardian._check_dignity intent),
    (EthicalGuardian._check_bias intent);
    cbn [orb negb app]; repeat apply conj;
    try (split; intros H; (reflexivity || discriminate H));
    intros H; try discriminate H; try reflexivity;
    intros H'; discriminate H'.
Qed.

Lemma verdict_concerns_and_redirect_witness :
  concerns (EthicalGuardian.evaluate dependent_intent None)
  = ["Creates unhealthy dependency"].
Proof.
  apply (verdict_concerns_and_redirect dependent_intent None).
  reflexivity.
Defined.

Lemma generate_redirect_harm (intent : Intent) (concerns : list string) :
  Py.mem "Direct harm potential" concerns = true ->
  EthicalGuardian._generate_redirect intent concerns
  = redirect_for "Direct harm potential".
Proof.
  intros H. unfold redirect_for, EthicalGuardian._generate_redirect.
  now rewrite H.
Qed.

(** X5.  A request whose lower-cased text contains one of the harm words
    ("sabotage", "attack", ...) is always redirected: whatever the state
    and the user, the result says [should_proceed = false], its first
    concern is "Direct harm potential", the response is the harm
    redirect, and the call is not counted in the user's memory. *)
Theorem harmful_request_is_redirected (self : MVG.t)
    (user_query uid word : string) (clock : Clock) :
  In word harm_words ->
  Py.contains word (Py.lower user_query) = true ->
  let done := MVG.process_request self user_query uid clock in
  ethical_should_proceed (metadata (fst done)) = false
  /\ hd_error (ethical_concerns (metadata (fst done)))
     = Some "Direct harm potential"
  /\ response (fst done) = redirect_for "Direct harm potential"
  /\ interaction_count (Run.memory_of (snd done) uid)
     = interaction_count (Run.memory_of self uid)
  /\ request_history (Run.memory_of (snd done) uid)
     = request_history (Run.memory_of self uid).
Proof.
  intros Hword Hcontains. cbv zeta.
  assert (Hharm :
    EthicalGuardian._check_harm
      (MVG.intent (MVG.stages self user_query uid clock)) = true).
  { rewrite stages_intent.
    destruct (checks_of_analyzed user_query (Some (Run.memory_of self uid)))
      as (-> & _).
    now apply (search_words_of_contains _ word). }
  assert (Hverdict :
    MVG.ethical_verdict (MVG.stages self user_query uid clock)
    = EthicalGuardian.evaluate
        (MVG.intent (MVG.stages self user_query uid clock))
        (Some (Run.memory_of self uid)))
    by apply stages_ethical_verdict.
  assert (Hblocked :
    should_proceed
      (MVG.ethical_verdict (MVG.stages self user_query uid clock)) = false).
  { rewrite Hverdict, evaluate_should_proceed, Hharm. reflexivity. }
  assert (Hconcerns :
    exists rest,
      concerns (MVG.ethical_verdict (MVG.stages self user_query uid clock))
      = "Direct harm potential" :: rest).
  { rewrite Hverdict, evaluate_by_checks. cbv zeta. cbn [concerns].
    rewrite Hharm. cbn [app]. eauto. }
  destruct Hconcerns as (rest & Hconcerns).
  rewrite process_request_memory.
  destruct (decide (uid = uid)) as [_ | Hne]; [| now destruct Hne].
  rewrite memory_after_interaction_count, memory_after_request_history,
    Hblocked, app_nil_r, Z.add_0_r.
  rewrite process_request_result_proceed, Hblocked.
  change (ethical_concerns
            (metadata (fst (MVG.process_request self user_query uid clock))))
    with (concerns
            (MVG.ethical_verdict (MVG.stages self user_query uid clock))).
  change (response (fst (MVG.process_request self user_query uid clock)))
    with (response_text
            (MVG.growth_response (MVG.stages self user_query uid clock))).
  rewrite Hconcerns. repeat apply conj; try reflexivity.
  rewrite stages_growth_response, (create_blocked _ _ _ _ _ Hblocked).
  cbn [fst GrowthResponseDesigner._create_redirect_response response_text].
  rewrite Hverdict, evaluate_by_checks. cbv zeta. cbn [redirect_suggestion].
  rewrite Hharm. cbn [orb negb app].
  rewrite or_else_text by apply generate_redirect_not_empty.
  apply generate_redirect_harm. reflexivity.
Qed.

Lemma harmful_request_is_redirected_witness :
  response (fst (MVG.process_request MVG.init sabotage_query "student_001"
                   sample_clock))
  = redirect_for "Direct harm potential".
Proof.
  apply (harmful_request_is_redirected MVG.init sabotage_query "student_001"
           "sabotage" sample_clock).
  - unfold harm_words. cbn [In]. auto 10.
  - reflexivity.
Defined.

(** ** Growth opportunity, motivation and opening lines *)

Lemma infer_deep_need_cases (query surface : string)
    (memory : option UserMemory) :
  (exists topic,
      IntentAnalyzer._infer_deep_need query surface memory
      = "Mastery in " +:+ topic)
  \/ In (IntentAnalyzer._infer_deep_need query surface memory)
        deep_need_labels.
Proof.
  unfold IntentAnalyzer._infer_deep_need. cbv zeta.
  destruct (List.find _ _) as [topic |]; [left; now exists topic | right].
  unfold deep_need_labels.
  repeat match goal with
         | |- context [if ?b then _ else _] => destruct b
         end;
    cbn [In]; auto 10.
Qed.

(** X6.  The growth opportunity of a request is "Transform complete
    solution request into guided learning" when the direct-solution
    pattern matches the lower-cased query and "Develop problem-solving
    capability" otherwise: the two other outcomes of
    [_identify_growth_opportunity] compare the deep need with texts that
    [_infer_deep_need] never returns, whatever the memory. *)
Theorem growth_opportunity_by_pattern (user_query : string)
    (memory : option UserMemory) :
  growth_opportunity (IntentAnalyzer.analyze user_query memory)
  = if Re.search_ignorecase IntentAnalyzer.direct_solution
         (Py.lower user_query)
    then "Transform complete solution request into guided learning"
    else "Develop problem-solving capability".
Proof.
  change (growth_opportunity (IntentAnalyzer.analyze user_query memory))
    with (IntentAnalyzer._identify_growth_opportunity
            (IntentAnalyzer._extract_surface_request user_query)
            (IntentAnalyzer._infer_deep_need user_query
               (IntentAnalyzer._extract_surface_request user_query) memory)
            (ethical_flags (IntentAnalyzer.analyze user_query memory))).
  unfold IntentAnalyzer._identify_growth_opportunity.
  rewrite analyze_ethical_flags.
  destruct (detect_ethical_flags_mem user_query
              (IntentAnalyzer._extract_surface_request user_query) memory)
    as (-> & _).
  rewrite surface_label_is_direct.
  destruct (Re.search_ignorecase _ _); [reflexivity |].
  destruct (infer_deep_need_cases user_query
              (IntentAnalyzer._extract_surface_request user_query) memory)
    as [(topic & ->) | Hin]; [reflexivity |].
  unfold deep_need_labels in Hin. cbn [In] in Hin.
  repeat destruct Hin as [<- | Hin]; try reflexivity. destruct Hin.
Qed.

(** X7.  The tone the response designer reads off the motivation of an
    analyzed request is "urgency" when the time-pressure pattern matches
    the lower-cased query, else "fear" when the fear pattern does, else
    "laziness" when the laziness pattern does, and "genuine" in every
    other case; it is never "neutral". *)
Theorem motivation_tone_by_pattern (user_query deep_need : string) :
  let query_lower := Py.lower user_query in
  let tone :=
    GrowthResponseDesigner._extract_motivation_tone
      (IntentAnalyzer._analyze_motivation user_query deep_need) in
  tone
  = (if Re.search_ignorecase IntentAnalyzer.time_pressure query_lower
     then "urgency"
     else if Re.search_ignorecase IntentAnalyzer.fear_anxiety query_lower
     then "fear"
     else if Re.search_ignorecase IntentAnalyzer.laziness_seeking query_lower
     then "laziness"
     else "genuine")
  /\ tone <> "neutral".
Proof.
  cbv zeta. unfold IntentAnalyzer._analyze_motivation. cbv zeta.
  destruct (Re.search_ignorecase IntentAnalyzer.time_pressure _);
    [| destruct (Re.search_ignorecase IntentAnalyzer.fear_anxiety _);
       [| destruct (Re.search_ignorecase IntentAnalyzer.laziness_seeking _);
          [| destruct (Re.search_ignorecase
                         IntentAnalyzer.genuine_curiosity _)]]];
    (split; [reflexivity | intros H; vm_compute in H; discriminate H]).
Qed.

Lemma advanced_template_of_label (label : string) :
  In label surface_labels ->
  Py.contains "verify" (Py.lower label) = false
  /\ Py.contains "optim" (Py.lower label) = false
  /\ Py.contains "better" (Py.lower label) = false.
Proof.
  unfold surface_labels. cbn [In]. intros H.
  repeat destruct H as [<- | H]; try (repeat split; reflexivity).
  destruct H.
Qed.

(** Every advanced reply to an analyzed request is the same text: none
    of the surface labels contains "verify", "optim" or "better", so
    [_design_for_advanced] always opens with its third line. *)
Lemma design_for_advanced_fixed (user_query tone : string)
    (memory memory' : option UserMemory) (capability : CapabilityAssessment) :
  response_text
    (GrowthResponseDesigner._design_for_advanced
       (IntentAnalyzer.analyze user_query memory) capability tone memory')
  = advanced_reply.
Proof.
  unfold GrowthResponseDesigner._design_for_advanced. cbv zeta.
  cbn [response_text]. rewrite analyze_surface_request.
  destruct (advanced_template_of_label _
              (extract_surface_request_label user_query))
    as (-> & -> & ->).
  reflexivity.
Qed.

(** X8.  Every request that is not blocked and is assessed as advanced
    gets one and the same response, whatever the query, the user and the
    state: no surface label contains "verify", "optim" or "better", so
    the verification and the optimization opening lines of
    [_design_for_advanced] are never chosen. *)
Theorem advanced_reply_is_fixed (self : MVG.t) (user_query uid : string)
    (clock : Clock) :
  let r := fst (MVG.process_request self user_query uid clock) in
  ethical_should_proceed (metadata r) = true ->
  capability_level (metadata r) = level_value ADVANCED ->
  response r = advanced_reply.
Proof.
  cbv zeta. rewrite process_request_result_proceed.
  change (capability_level
            (metadata (fst (MVG.process_request self user_query uid clock))))
    with (level_value
            (level (MVG.capability (MVG.stages self user_query uid clock)))).
  change (response (fst (MVG.process_request self user_query uid clock)))
    with (response_text
            (MVG.growth_response (MVG.stages self user_query uid clock))).
  intros Hproceed Hlevel.
  rewrite stages_growth_response.
  unfold GrowthResponseDesigner.create. rewrite Hproceed. cbn [negb fst].
  destruct (level (MVG.capability (MVG.stages self user_query uid clock)));
    try discriminate Hlevel.
  rewrite stages_intent. apply design_for_advanced_fixed.
Qed.

Lemma advanced_reply_is_fixed_witness :
  response
    (fst (MVG.process_request MVG.init
            "Can you verify this? I tested it because it looked wrong."
            "student_001" sample_clock))
  = advanced_reply.
Proof.
  apply (advanced_reply_is_fixed MVG.init
           "Can you verify this? I tested it because it looked wrong."
           "student_001" sample_clock); reflexivity.
Defined.


(** ** The assessment: levels and default labels *)

Lemma learning_trajectory_at_least_5 (memory : option UserMemory) :
  5 <= CapabilityAssessor._analyze_learning_trajectory memory.
Proof.
  unfold CapabilityAssessor._analyze_learning_trajectory.
  destruct memory as [m |]; [| lia].
  destruct (capability_trend m) as [| x trend]; [lia |].
  cbv zeta.
  destruct (1 <? _); [| lia].
  destruct (Z.ltb_spec (List.hd 0 (Py.last_n 5 (x :: trend)))
                       (List.last (Py.last_n 5 (x :: trend)) 0)) as [Hup | _].
  - pose proof (Z.div_pos
                  (List.last (Py.last_n 5 (x :: trend)) 0
                   - List.hd 0 (Py.last_n 5 (x :: trend))) 5).
    lia.
  - destruct (_ <? _); lia.
Qed.

(** X10.  A request is assessed as a beginner's only if its lower-cased
    text matches the confusion pattern, the overconfidence pattern or the
    shortcut pattern: without one of these deductions the sub-scores are
    at least 10, 10, 8 and 5, which is already 33. *)
Theorem beginner_needs_a_deduction (user_query : string)
    (memory : option UserMemory) :
  let query_lower := Py.lower user_query in
  level (CapabilityAssessor.assess user_query memory) = BEGINNER ->
  Re.search (Re.Words ["don't understand"; "confused"; "lost"; "no idea"])
    query_lower = true
  \/ Re.search (Re.Words ["obviously"; "clearly"; "simple"; "easy";
                          "anyone knows"]) query_lower = true
  \/ Re.search (Re.Words ["just"; "quick"; "fast"; "simple";
                          "without effort"]) query_lower = true.
Proof.
  cbv zeta. rewrite assess_level, assess_score.
  unfold CapabilityAssessor._calculate_capability_score.
  pose proof (learning_trajectory_at_least_5 memory) as Ht.
  unfold CapabilityAssessor._assess_reasoning_quality,
    CapabilityAssessor._assess_self_awareness,
    CapabilityAssessor._assess_effort_shown.
  cbv zeta.
  destruct (Re.search (Re.Words ["don't understand"; "confused"; "lost";
                                 "no idea"]) _); [now left |].
  destruct (Re.search (Re.Words ["obviously"; "clearly"; "simple"; "easy";
                                 "anyone knows"]) _); [now right; left |].
  destruct (Re.search (Re.Words ["just"; "quick"; "fast"; "simple";
                                 "without effort"]) _); [now right; right |].
  intros Hlevel. exfalso.
  repeat match type of Hlevel with
         | context [if Re.search ?r ?s then _ else _] =>
             destruct (Re.search r s)
         | context [if 40 <? ?n then _ else _] => destruct (40 <? n)
         | context [if 1 <? ?n then _ else _] => destruct (1 <? n)
         end;
    match type of Hlevel with
    | (if ?a <? 30 then _ else _) = _ =>
        destruct (Z.ltb_spec a 30); [lia |];
        destruct (a <? 70); discriminate Hlevel
    end.
Qed.

Lemma beginner_needs_a_deduction_witness :
  Re.search (Re.Words ["don't understand"; "confused"; "lost"; "no idea"])
    (Py.lower "just lost") = true
  \/ Re.search (Re.Words ["obviously"; "clearly"; "simple"; "easy";
                          "anyone knows"]) (Py.lower "just lost") = true
  \/ Re.search (Re.Words ["just"; "quick"; "fast"; "simple";
                          "without effort"]) (Py.lower "just lost") = true.
Proof.
  apply (beginner_needs_a_deduction "just lost"
           (Some (memory_with_trend [0; 20]))).
  reflexivity.
Defined.

Lemma first_char_differs (s t : string) :
  String.get 0 s <> String.get 0 t -> s <> t.
Proof. intros Hget ->. now apply Hget. Qed.

Lemma progress_strengths_found (known : list (string * string)) :
  Forall found_strength
    (flat_map (fun tl : string * string =>
                 if String.eqb (snd tl) "beginner" then []
                 else if String.eqb (snd tl) "improving"
                      then ["Making progress in " +:+ fst tl] else [])
       known).
Proof.
  induction known as [| [topic lvl] known IH]; [constructor |].
  cbn [flat_map fst snd]. apply Forall_app. split; [| exact IH].
  destruct (String.eqb lvl "beginner"); [constructor |].
  destruct (String.eqb lvl "improving"); constructor; [| constructor].
  split; apply first_char_differs; vm_compute; discriminate.
Qed.

Lemma progress_weaknesses_found (known : list (string * string)) :
  Forall found_weakness
    (flat_map (fun tl : string * string =>
                 if String.eqb (snd tl) "beginner"
                 then ["Building foundational skills in " +:+ fst tl]
                 else []) known).
Proof.
  induction known as [| [topic lvl] known IH]; [constructor |].
  cbn [flat_map fst snd]. apply Forall_app. split; [| exact IH].
  destruct (String.eqb lvl "beginner"); constructor; [| constructor].
  split; apply first_char_differs; vm_compute; discriminate.
Qed.

Lemma identify_competencies_shape (query : string) (sc : Z)
    (memory : option UserMemory) :
  exists found_s found_w,
    Forall found_strength found_s
    /\ Forall found_weakness found_w
    /\ CapabilityAssessor._identify_competencies query sc memory
       = if sc <? 30 then
           (found_s, found_w ++ ["Needs foundational knowledge and practice"])
         else if 70 <? sc then
           (found_s ++ ["Demonstrates advanced understanding"], found_w)
         else
           (found_s ++ ["Has solid foundational knowledge"],
            found_w ++ ["Can deepen understanding of nuanced concepts"]).
Proof.
  unfold CapabilityAssessor._identify_competencies. cbv zeta.
  eexists _, _. split; [| split; [| reflexivity]].
  - repeat (apply Forall_app; split);
      try apply progress_strengths_found;
      match goal with
      | |- Forall _ (if ?b then _ else _) => destruct b
      end;
      repeat constructor; intros H; discriminate H.
  - apply progress_weaknesses_found.
Qed.

Lemma assess_competencies (user_query : string) (memory : option UserMemory) :
  (strengths (CapabilityAssessor.assess user_query memory),
   weaknesses (CapabilityAssessor.assess user_query memory))
  = CapabilityAssessor._identify_competencies user_query
      (score (CapabilityAssessor.assess user_query memory)) memory.
Proof.
  rewrite assess_score. unfold CapabilityAssessor.assess.
  now destruct (CapabilityAssessor._identify_competencies _ _ _).
Qed.

Lemma In_found_strength (x : string) (found : list string) :
  Forall found_strength found -> In x found -> found_strength x.
Proof. intros Hall Hin. rewrite List.Forall_forall in Hall. auto. Qed.

Lemma In_found_weakness (x : string) (found : list string) :
  Forall found_weakness found -> In x found -> found_weakness x.
Proof. intros Hall Hin. rewrite List.Forall_forall in Hall. auto. Qed.

(** X11.  The default labels of an assessment follow the score, with the
    bounds of [_identify_competencies] and not those of the level:
    "Demonstrates advanced understanding" is a strength exactly when the
    score is above 70 and "Needs foundational knowledge and practice" a
    weakness exactly when it is below 30; from 30 to 70 the strengths
    hold "Has solid foundational knowledge".  So an assessment with
    score 70 has level advanced and the labels of the middle band.  The
    weaknesses are not empty below 30 and the strengths are not empty
    from 30 on, so the designers never fall back on their own texts. *)
Theorem default_labels_by_score (user_query : string)
    (memory : option UserMemory) :
  let a := CapabilityAssessor.assess user_query memory in
  (In "Demonstrates advanced understanding" (strengths a) <-> 70 < score a)
  /\ (In "Needs foundational knowledge and practice" (weaknesses a)
      <-> score a < 30)
  /\ (In "Has solid foundational knowledge" (strengths a)
      <-> 30 <= score a <= 70)
  /\ (score a < 30 -> weaknesses a <> [])
  /\ (30 <= score a -> strengths a <> [])
  /\ (score a = 70 ->
      level a = ADVANCED
      /\ ~ In "Demonstrates advanced understanding" (strengths a)
      /\ In "Has solid foundational knowledge" (strengths a)).
Proof.
  cbv zeta.
  pose proof (assess_competencies user_query memory) as Hpair.
  pose proof (assess_level user_query memory) as Hlevel.
  destruct (identify_competencies_shape user_query
              (score (CapabilityAssessor.assess user_query memory)) memory)
    as (found_s & found_w & Hs & Hw & Hshape).
  rewrite Hshape in Hpair. clear Hshape.
  set (a := CapabilityAssessor.assess user_query memory) in *.
  assert (Hno_s : forall x, In x found_s -> found_strength x)
    by (intros x; apply In_found_strength, Hs).
  assert (Hno_w : forall x, In x found_w -> found_weakness x)
    by (intros x; apply In_found_weakness, Hw).
  destruct (Z.ltb_spec (score a) 30) as [Hlow | Hlow];
    [| destruct (Z.ltb_spec 70 (score a)) as [Hhigh | Hhigh]];
    injection Hpair as -> ->;
    repeat apply conj;
    repeat match goal with
           | |- _ <-> _ => split
           | |- _ -> _ => intros ?
           | |- _ /\ _ => split
           | |- ~ _ => intros ?
           | H : In _ (_ ++ _) |- _ => apply in_app_or in H; destruct H as [H | H]
           | H : In _ [_] |- _ => destruct H as [H | []]
           | H : In ?x found_s |- _ => apply Hno_s in H; destruct H
           | H : In ?x found_w |- _ => apply Hno_w in H; destruct H
           end;
    try lia; try congruence; try discriminate;
    try (apply in_or_app; right; now left);
    try (destruct found_s; discriminate);
    try (destruct found_w; discriminate).
  - rewrite Hlevel. destruct (Z.ltb_spec (score a) 30); [lia |].
    destruct (Z.ltb_spec (score a) 70); [lia | reflexivity].
Qed.

Lemma default_labels_by_score_witness :
  level (CapabilityAssessor.assess "because tested" None) = ADVANCED
  /\ ~ In "Demonstrates advanced understanding"
       (strengths (CapabilityAssessor.assess "because tested" None))
  /\ In "Has solid foundational knowledge"
       (strengths (CapabilityAssessor.assess "because tested" None)).
Proof.
  pose proof (default_labels_by_score "because tested" None) as H.
  cbv zeta in H. destruct H as (_ & _ & _ & _ & _ & H).
  apply H. reflexivity.
Defined.

(** ** Users do not see each other, and nobody sees the contexts *)

Lemma stages_of_memory (s1 s2 : MVG.t) (user_query uid : string)
    (clock : Clock) :
  Run.memory_of s1 uid = Run.memory_of s2 uid ->
  MVG.stages s1 user_query uid clock = MVG.stages s2 user_query uid clock.
Proof. intros H. rewrite !stages_eq. now rewrite H. Qed.

Lemma result_of_stages (self : MVG.t) (user_query uid : string)
    (clock : Clock) :
  fst (MVG.process_request self user_query uid clock)
  = let tr := MVG.stages self user_query uid clock in
    {| response := response_text (MVG.growth_response tr);
       metadata :=
         {| meta_user_id := uid;
            interaction_number := interaction_count (MVG.memory_after tr) + 1;
            intent_surface := surface_request (MVG.intent tr);
            intent_deep_need := deep_need (MVG.intent tr);
            intent_motivation := underlying_motivation (MVG.intent tr);
            intent_growth_opportunity := growth_opportunity (MVG.intent tr);
            capability_level := level_value (level (MVG.capability tr));
            capability_score := score (MVG.capability tr);
            capability_trend_label :=
              MVG.trend_label (capability_trend (MVG.memory_after tr));
            capability_strengths := strengths (MVG.capability tr);
            capability_weaknesses := weaknesses (MVG.capability tr);
            ethical_should_proceed := should_proceed (MVG.ethical_verdict tr);
            ethical_concerns := concerns (MVG.ethical_verdict tr);
            meta_expected_outcome := expected_outcome (MVG.growth_response tr);
            meta_independence_impact :=
              independence_score_impact (MVG.growth_response tr) |} |}.
Proof. reflexivity. Qed.

(** X12.  A call of one user leaves the memory of every other user as it
    is, and changes nothing in what a later call of another user
    returns. *)
Theorem other_users_are_unaffected (self : MVG.t)
    (user_query uid other : string) (clock : Clock) :
  uid <> other ->
  let self' := snd (MVG.process_request self user_query uid clock) in
  MVG.user_memories self' !! other = MVG.user_memories self !! other
  /\ forall later_query later_clock,
       fst (MVG.process_request self' later_query other later_clock)
       = fst (MVG.process_request self later_query other later_clock).
Proof.
  intros Hne. cbv zeta. split.
  - unfold MVG.process_request. cbn [snd MVG.user_memories].
    now apply lookup_insert_ne.
  - intros later_query later_clock. rewrite !result_of_stages.
    rewrite (stages_of_memory
               (snd (MVG.process_request self user_query uid clock)) self);
      [reflexivity |].
    rewrite process_request_memory.
    now destruct (decide (uid = other)).
Qed.

Lemma other_users_are_unaffected_witness :
  MVG.user_memories
    (snd (MVG.process_request
            (snd (MVG.process_request MVG.init essay_query "student_002"
                    sample_clock))
            shortcut_query "student_001" sample_clock)) !! "student_002"
  = MVG.user_memories
      (snd (MVG.process_request MVG.init essay_query "student_002"
              sample_clock)) !! "student_002".
Proof.
  apply (other_users_are_unaffected
           (snd (MVG.process_request MVG.init essay_query "student_002"
                   sample_clock))
           shortcut_query "student_001" "student_002" sample_clock).
  discriminate.
Defined.

Section SameView.
Variables (m1 m2 : UserMemory).
Hypothesis Hview : forget_context m1 = forget_context m2.

Lemma analyze_same_view (user_query : string) :
  IntentAnalyzer.analyze user_query (Some m1)
  = IntentAnalyzer.analyze user_query (Some m2).
Proof.
  change (IntentAnalyzer.analyze user_query (Some (forget_context m1))
          = IntentAnalyzer.analyze user_query (Some (forget_context m2))).
  now rewrite Hview.
Qed.

Lemma assess_same_view (user_query : string) :
  CapabilityAssessor.assess user_query (Some m1)
  = CapabilityAssessor.assess user_query (Some m2).
Proof.
  change (CapabilityAssessor.assess user_query (Some (forget_context m1))
          = CapabilityAssessor.assess user_query (Some (forget_context m2))).
  now rewrite Hview.
Qed.

Lemma evaluate_same_view (intent : Intent) :
  EthicalGuardian.evaluate intent (Some m1)
  = EthicalGuardian.evaluate intent (Some m2).
Proof.
  change (EthicalGuardian.evaluate intent (Some (forget_context m1))
          = EthicalGuardian.evaluate intent (Some (forget_context m2))).
  now rewrite Hview.
Qed.

Lemma create_response_same_view (intent : Intent)
    (capability : CapabilityAssessment) (verdict : EthicalVerdict)
    (now : datetime) :
  fst (GrowthResponseDesigner.create intent capability verdict (Some m1) now)
  = fst (GrowthResponseDesigner.create intent capability verdict (Some m2)
           now).
Proof.
  unfold GrowthResponseDesigner.create.
  destruct (negb (should_proceed verdict)); [reflexivity |].
  now destruct (level capability).
Qed.

Lemma record_interaction_same_view (intent : Intent)
    (capability : CapabilityAssessment) (now : datetime) :
  forget_context
    (GrowthResponseDesigner.record_interaction intent capability now m1)
  = forget_context
      (GrowthResponseDesigner.record_interaction intent capability now m2).
Proof.
  change (forget_context
            (GrowthResponseDesigner.record_interaction intent capability now
               (forget_context m1))
          = forget_context
              (GrowthResponseDesigner.record_interaction intent capability
                 now (forget_context m2))).
  now rewrite Hview.
Qed.

End SameView.

Lemma forget_log_interaction (entry : ContextEntry) (m : UserMemory) :
  forget_context (MVG.log_interaction entry m) = forget_context m.
Proof. reflexivity. Qed.

Lemma stages_same_view (s1 s2 : MVG.t) (user_query uid : string)
    (clock : Clock) :
  forget_context (Run.memory_of s1 uid)
  = forget_context (Run.memory_of s2 uid) ->
  let tr1 := MVG.stages s1 user_query uid clock in
  let tr2 := MVG.stages s2 user_query uid clock in
  MVG.intent tr1 = MVG.intent tr2
  /\ MVG.capability tr1 = MVG.capability tr2
  /\ MVG.ethical_verdict tr1 = MVG.ethical_verdict tr2
  /\ MVG.growth_response tr1 = MVG.growth_response tr2
  /\ forget_context (MVG.memory_after tr1)
     = forget_context (MVG.memory_after tr2).
Proof.
  intros Hview. cbv zeta.
  assert (Hintent :
    MVG.intent (MVG.stages s1 user_query uid clock)
    = MVG.intent (MVG.stages s2 user_query uid clock))
    by (rewrite !stages_intent; now apply analyze_same_view).
  assert (Hcapability :
    MVG.capability (MVG.stages s1 user_query uid clock)
    = MVG.capability (MVG.stages s2 user_query uid clock))
    by (rewrite !stages_capability; now apply assess_same_view).
  assert (Hverdict :
    MVG.ethical_verdict (MVG.stages s1 user_query uid clock)
    = MVG.ethical_verdict (MVG.stages s2 user_query uid clock))
    by (rewrite !stages_ethical_verdict, Hintent;
        now apply evaluate_same_view).
  repeat apply conj; try assumption.
  - rewrite !stages_growth_response, Hintent, Hcapability, Hverdict.
    now apply create_response_same_view.
  - rewrite !stages_memory_after, !forget_log_interaction,
      !memory_after_designer_cases, Hintent, Hcapability, Hverdict.
    destruct (should_proceed _); [| assumption].
    now apply record_interaction_same_view.
Qed.

Lemma forget_context_fields (m1 m2 : UserMemory) :
  forget_context m1 = forget_context m2 ->
  interaction_count m1 = interaction_count m2
  /\ capability_trend m1 = capability_trend m2.
Proof.
  intros H. split.
  - exact (f_equal interaction_count H).
  - exact (f_equal capability_trend H).
Qed.

Lemma process_request_same_view (s1 s2 : MVG.t) (user_query uid : string)
    (clock : Clock) :
  same_view s1 s2 ->
  fst (MVG.process_request s1 user_query uid clock)
  = fst (MVG.process_request s2 user_query uid clock)
  /\ same_view (snd (MVG.process_request s1 user_query uid clock))
       (snd (MVG.process_request s2 user_query uid clock)).
Proof.
  intros Hview.
  destruct (stages_same_view s1 s2 user_query uid clock (Hview uid))
    as (Hintent & Hcapability & Hverdict & Hresponse & Hafter).
  destruct (forget_context_fields _ _ Hafter) as (Hcount & Htrend).
  split.
  - rewrite !result_of_stages. cbv zeta.
    now rewrite Hintent, Hcapability, Hverdict, Hresponse, Hcount, Htrend.
  - intros other. rewrite !process_request_memory.
    destruct (decide (uid = other)); [assumption | apply Hview].
Qed.

Lemma run_same_view (calls : list Call) :
  forall s1 s2 : MVG.t,
    same_view s1 s2 ->
    snd (Run.run s1 calls) = snd (Run.run s2 calls)
    /\ same_view (fst (Run.run s1 calls)) (fst (Run.run s2 calls)).
Proof.
  induction calls as [| c calls IH]; intros s1 s2 Hview; [now split |].
  rewrite !run_cons. cbv zeta. cbn [fst snd].
  destruct (process_request_same_view s1 s2 (call_query c) (call_user c)
              (call_clock c) Hview) as (Hresult & Hview').
  destruct (IH _ _ Hview') as (Hresults & Hfinal).
  split; [now rewrite Hresult, Hresults | assumption].
Qed.

Lemma blocked_same_view (self : MVG.t) (user_query uid : string)
    (clock : Clock) :
  ethical_should_proceed
    (metadata (fst (MVG.process_request self user_query uid clock))) = false ->
  same_view (snd (MVG.process_request self user_query uid clock)) self.
Proof.
  rewrite process_request_result_proceed. intros Hblocked other.
  rewrite process_request_memory.
  destruct (decide (uid = other)) as [<- | _]; [| reflexivity].
  now rewrite stages_memory_after, forget_log_interaction,
    memory_after_designer_cases, Hblocked.
Qed.

(** X13.  The conversation context is only ever written: two states
    that show every user the same memory, conversation contexts apart,
    return the same results for every sequence of calls and still agree
    in that way afterwards. *)
Theorem conversation_context_is_write_only (s1 s2 : MVG.t)
    (calls : list Call) :
  same_view s1 s2 ->
  snd (Run.run s1 calls) = snd (Run.run s2 calls)
  /\ same_view (fst (Run.run s1 calls)) (fst (Run.run s2 calls)).
Proof. apply run_same_view. Qed.

Lemma conversation_context_is_write_only_witness :
  snd (Run.run
         (snd (MVG.process_request MVG.init sabotage_query "student_001"
                 sample_clock))
         seven_calls)
  = snd (Run.run MVG.init seven_calls).
Proof.
  apply (conversation_context_is_write_only
           (snd (MVG.process_request MVG.init sabotage_query "student_001"
                   sample_clock))
           MVG.init seven_calls).
  apply blocked_same_view. reflexivity.
Defined.

(** X14.  A blocked call leaves no trace in what the system returns
    afterwards: every sequence of later calls, of whatever users, gets
    the results it would have got without the blocked call. *)
Theorem blocked_call_leaves_no_trace (self : MVG.t)
    (user_query uid : string) (clock : Clock) (later : list Call) :
  ethical_should_proceed
    (metadata (fst (MVG.process_request self user_query uid clock))) = false ->
  snd (Run.run (snd (MVG.process_request self user_query uid clock)) later)
  = snd (Run.run self later).
Proof.
  intros Hblocked. apply run_same_view. now apply blocked_same_view.
Qed.

Lemma blocked_call_leaves_no_trace_witness :
  snd (Run.run
         (snd (MVG.process_request MVG.init sabotage_query "student_001"
                 sample_clock))
         [sample_call essay_query])
  = snd (Run.run MVG.init [sample_call essay_query]).
Proof.
  apply (blocked_call_leaves_no_trace MVG.init sabotage_query "student_001"
           sample_clock [sample_call essay_query]).
  reflexivity.
Defined.

(** ** What the memories keep *)

Lemma calls_by_cons (uid : string) (c : Call) (calls : list Call) :
  calls_by uid (c :: calls)
  = (if bool_decide (call_user c = uid) then 1 else 0) + calls_by uid calls.
Proof.
  unfold calls_by. cbn [List.filter].
  destruct (String.eqb_spec (call_user c) uid) as [Heq | Hne].
  - rewrite bool_decide_eq_true_2 by assumption. cbn [length]. lia.
  - rewrite bool_decide_eq_false_2 by assumption. lia.
Qed.

Lemma memory_after_conversation_context (self : MVG.t)
    (user_query uid : string) (clock : Clock) :
  let tr := MVG.stages self user_query uid clock in
  exists entry,
    conversation_context (MVG.memory_after tr)
    = conversation_context (Run.memory_of self uid) ++ [entry]
    /\ ctx_query entry = user_query
    /\ ctx_response entry
       = response (fst (MVG.process_request self user_query uid clock))
    /\ ctx_capability_score entry
       = capability_score
           (metadata (fst (MVG.process_request self user_query uid clock)))
    /\ ctx_timestamp entry = context_now_iso clock.
Proof.
  cbv zeta. eexists. split.
  - rewrite stages_memory_after, memory_after_designer_cases.
    unfold MVG.log_interaction, GrowthResponseDesigner.record_interaction.
    destruct (should_proceed _); cbn [conversation_context]; reflexivity.
  - repeat split.
Qed.

Lemma run_conversation_context (calls : list Call) :
  forall (self : MVG.t) (uid : string),
    exists entries,
      conversation_context (Run.memory_of (fst (Run.run self calls)) uid)
      = conversation_context (Run.memory_of self uid) ++ entries
      /\ Z.of_nat (length entries) = calls_by uid calls
      /\ Run.proceeded_count uid (snd (Run.run self calls))
         <= calls_by uid calls.
Proof.
  induction calls as [| c calls IH]; intros self uid.
  - exists []. rewrite app_nil_r. repeat split. reflexivity.
  - rewrite run_cons. cbv zeta. cbn [fst snd].
    destruct (IH (snd (MVG.process_request self (call_query c)
                         (call_user c) (call_clock c))) uid)
      as (entries & Hctx & Hlen & Hle).
    rewrite Hctx, process_request_memory, calls_by_cons,
      proceeded_count_cons, proceeded_for_result.
    destruct (decide (call_user c = uid)) as [<- | Hne].
    + rewrite bool_decide_eq_true_2 by reflexivity. cbn [andb].
      destruct (memory_after_conversation_context self (call_query c)
                  (call_user c) (call_clock c)) as (entry & -> & _).
      exists (entry :: entries). rewrite <- app_assoc.
      split; [reflexivity |]. cbn [length].
      destruct (should_proceed _); split; lia.
    + rewrite bool_decide_eq_false_2 by assumption. cbn [andb].
      exists entries. repeat split; [assumption | lia].
Qed.

(** X15.  The conversation context of a user gets one record for every
    call of that user, blocked or not, at its end: after any calls on a
    new system its length is the number of the user's calls, and the
    interaction count, which leaves blocked calls out, is never above
    it.  The record of a call holds the query, the response returned,
    the score and the clock reading of that call. *)
Theorem conversation_context_records_every_call :
  (forall (calls : list Call) (uid : string),
      let m := Run.memory_of (fst (Run.run MVG.init calls)) uid in
      Z.of_nat (length (conversation_context m)) = calls_by uid calls
      /\ interaction_count m <= calls_by uid calls)
  /\ (forall (self : MVG.t) (user_query uid : string) (clock : Clock),
        let done := MVG.process_request self user_query uid clock in
        exists entry,
          conversation_context (Run.memory_of (snd done) uid)
          = conversation_context (Run.memory_of self uid) ++ [entry]
          /\ ctx_query entry = user_query
          /\ ctx_response entry = response (fst done)
          /\ ctx_capability_score entry
             = capability_score (metadata (fst done))
          /\ ctx_timestamp entry = context_now_iso clock).
Proof.
  split.
  - intros calls uid. cbv zeta.
    destruct (run_conversation_context calls MVG.init uid)
      as (entries & -> & Hlen & Hle).
    destruct (run_counters_init calls uid) as (-> & _).
    rewrite memory_of_init. cbn [new_memory conversation_context app].
    split; assumption.
  - intros self user_query uid clock. cbv zeta.
    rewrite process_request_memory.
    destruct (decide (uid = uid)) as [_ | Hne]; [| now destruct Hne].
    apply memory_after_conversation_context.
Qed.

Lemma new_memory_invariant (uid : string) :
  memory_invariant uid (new_memory uid).
Proof. unfold memory_invariant. cbn. repeat split; intros; (lia || reflexivity). Qed.

Lemma memory_after_invariant (self : MVG.t) (user_query uid : string)
    (clock : Clock) :
  memory_invariant uid (Run.memory_of self uid) ->
  memory_invariant uid
    (MVG.memory_after (MVG.stages self user_query uid clock)).
Proof.
  unfold memory_invariant.
  intros (Huser & Htopics & Hprogress & Hpos & Hhistory & Htrend & Hlast).
  rewrite stages_memory_after, memory_after_designer_cases.
  unfold MVG.log_interaction, GrowthResponseDesigner.record_interaction.
  destruct (should_proceed _);
    cbn [user_id topic_expertise learning_progress interaction_count
         request_history capability_trend last_interaction];
    rewrite ?length_app; cbn [length];
    repeat apply conj; try assumption; try lia; try apply Hlast.
  intros H. discriminate H.
Qed.

Lemma run_memory_invariant (calls : list Call) :
  forall self : MVG.t,
    (forall uid, memory_invariant uid (Run.memory_of self uid)) ->
    forall uid,
      memory_invariant uid (Run.memory_of (fst (Run.run self calls)) uid).
Proof.
  induction calls as [| c calls IH]; intros self Hself uid; [apply Hself |].
  rewrite run_cons. cbv zeta. cbn [fst]. apply IH. clear uid.
  intros uid. rewrite process_request_memory.
  destruct (decide (call_user c = uid)) as [<- | _]; [| apply Hself].
  apply memory_after_invariant, Hself.
Qed.

(** X16.  In every state that calls on a new system lead to, the memory
    of each user is filed under that user's identifier, its topic
    expertise and learning progress are still empty (no component fills
    them in), its request history and capability trend have one entry
    per counted interaction, and its last-interaction time is unset
    exactly when no interaction has been counted. *)
Theorem memory_invariant_holds (calls : list Call) (uid : string) :
  memory_invariant uid (Run.memory_of (fst (Run.run MVG.init calls)) uid).
Proof.
  apply run_memory_invariant. intros other. rewrite memory_of_init.
  apply new_memory_invariant.
Qed.

(** X17.  In the pipeline the deep need is always one of the five fixed
    labels: "Mastery in <topic>" needs a topic in the learning progress,
    and that stays empty. *)
Theorem deep_need_is_a_fixed_label (calls : list Call)
    (user_query uid : string) (clock : Clock) :
  let self := fst (Run.run MVG.init calls) in
  In (intent_deep_need
        (metadata (fst (MVG.process_request self user_query uid clock))))
     deep_need_labels.
Proof.
  cbv zeta.
  change (intent_deep_need
            (metadata
               (fst (MVG.process_request (fst (Run.run MVG.init calls))
                       user_query uid clock))))
    with (deep_need
            (MVG.intent
               (MVG.stages (fst (Run.run MVG.init calls)) user_query uid
                  clock))).
  rewrite stages_intent.
  destruct (run_memory_invariant calls MVG.init
              (fun other =>
                 eq_ind_r (memory_invariant other)
                   (new_memory_invariant other) (memory_of_init other))
              uid)
    as (_ & _ & Hprogress & _).
  change (deep_need
            (IntentAnalyzer.analyze user_query
               (Some (Run.memory_of (fst (Run.run MVG.init calls)) uid))))
    with (IntentAnalyzer._infer_deep_need user_query
            (IntentAnalyzer._extract_surface_request user_query)
            (Some (Run.memory_of (fst (Run.run MVG.init calls)) uid))).
  unfold IntentAnalyzer._infer_deep_need. cbv zeta. rewrite Hprogress.
  cbn [map List.find]. unfold deep_need_labels.
  repeat match goal with
         | |- context [if ?b then _ else _] => destruct b
         end;
    cbn [In]; auto 10.
Qed.

(** ** The trend reported with a result *)

Lemma trend_label_last_two (prefix : list Z) (a b : Z) :
  MVG.trend_label (prefix ++ [a; b])
  = if a <? b then "improving" else "stable".
Proof.
  unfold MVG.trend_label.
  change 2%nat with (length [a; b]).
  now rewrite (last_n_app prefix [a; b]).
Qed.

Lemma trend_label_snoc (trend : list Z) (latest : Z) :
  MVG.trend_label (trend ++ [latest])
  = match last trend with
    | Some before => if before <? latest then "improving" else "stable"
    | None => "stable"
    end.
Proof.
  destruct trend as [| x trend] using rev_ind; [reflexivity |].
  rewrite last_snoc, <- app_assoc. apply trend_label_last_two.
Qed.

(** X18.  The trend of a result compares the last two recorded scores.
    For a call that is not blocked these are the user's previous score
    and the score of this call: the trend is "improving" when there is a
    previous score and the new one is above it, and "stable" otherwise,
    so also on a user's first call.  A blocked call records no score and
    reports the trend of the two scores before it. *)
Theorem trend_compares_last_two_scores (self : MVG.t)
    (user_query uid : string) (clock : Clock) :
  let m := Run.memory_of self uid in
  let r := fst (MVG.process_request self user_query uid clock) in
  (ethical_should_proceed (metadata r) = true ->
   capability_trend_label (metadata r)
   = match last (capability_trend m) with
     | Some before =>
         if before <? capability_score (metadata r)
         then "improving" else "stable"
     | None => "stable"
     end)
  /\ (ethical_should_proceed (metadata r) = false ->
      capability_trend_label (metadata r)
      = MVG.trend_label (capability_trend m)).
Proof.
  cbv zeta. rewrite process_request_result_proceed.
  change (capability_trend_label
            (metadata (fst (MVG.process_request self user_query uid clock))))
    with (MVG.trend_label
            (capability_trend
               (MVG.memory_after (MVG.stages self user_query uid clock)))).
  change (capability_score
            (metadata (fst (MVG.process_request self user_query uid clock))))
    with (score (MVG.capability (MVG.stages self user_query uid clock))).
  rewrite memory_after_capability_trend.
  split; intros ->.
  - apply trend_label_snoc.
  - now rewrite app_nil_r.
Qed.

Lemma trend_compares_last_two_scores_witness :
  capability_trend_label
    (metadata
       (fst (MVG.process_request MVG.init essay_query "student_001"
               sample_clock)))
  = "stable".
Proof.
  pose proof (trend_compares_last_two_scores MVG.init essay_query
                "student_001" sample_clock) as H.
  cbv zeta in H. destruct H as (H & _).
  rewrite H; reflexivity.
Defined.

(** ** The table of memories *)

(** X19.  [get_or_create_user_memory] files what it returns under the
    user's identifier and touches no other entry; asking again returns
    the same memory and leaves the table as it is.  For an unknown user
    the memory is a new one, with count 0 and empty histories; for a
    known user it is the stored one and the table is unchanged. *)
Theorem get_or_create_round_trip (self : MVG.t) (uid : string) :
  let got := MVG.get_or_create_user_memory self uid in
  MVG.user_memories (snd got) !! uid = Some (fst got)
  /\ MVG.get_or_create_user_memory (snd got) uid = got
  /\ (forall other,
        other <> uid ->
        MVG.user_memories (snd got) !! other
        = MVG.user_memories self !! other)
  /\ (MVG.user_memories self !! uid = None -> fst got = new_memory uid)
  /\ (forall m, MVG.user_memories self !! uid = Some m -> got = (m, self)).
Proof.
  cbv zeta. unfold MVG.get_or_create_user_memory.
  destruct (MVG.user_memories self !! uid) as [m |] eqn:Hlookup;
    cbn [fst snd MVG.user_memories].
  - rewrite Hlookup. repeat apply conj; try reflexivity.
    + intros H. discriminate H.
    + now intros m' [= ->].
  - rewrite lookup_insert_eq. repeat apply conj; try reflexivity.
    + intros other Hne. now apply lookup_insert_ne.
    + intros m' H. discriminate H.
Qed.

(** ** The 60 percent test of the dependency check *)

Lemma int_gt_float_monotone (x : Py.float) (k k' : Z) :
  k <= k' -> Py.int_gt_float k x = true -> Py.int_gt_float k' x = true.
Proof.
  intros Hle. unfold Py.int_gt_float.
  destruct x as [s | s | | s m e]; try (intros H; exact H).
  - intros H. apply Z.ltb_lt in H. apply Z.ltb_lt. lia.
  - cbv zeta. destruct (0 <=? e).
    + intros H. apply Z.ltb_lt in H. apply Z.ltb_lt. lia.
    + intros H. apply Z.ltb_lt in H. apply Z.ltb_lt.
      pose proof (Z.pow_nonneg 2 (- e)). nia.
Qed.

Lemma In_count_from (len : nat) :
  forall start n : Z,
    start <= n < start + Z.of_nat len -> In n (count_from start len).
Proof.
  induction len as [| len IH]; intros start n Hn; [lia |].
  cbn [count_from In].
  destruct (Z.eq_dec start n) as [Heq | Hne]; [now left | right].
  apply IH. lia.
Qed.

Lemma threshold_checked : forallb threshold_at checked_counts = true.
Proof. vm_compute. reflexivity. Qed.

Lemma threshold_at_count (n : Z) :
  0 <= n <= 10000 -> threshold_at n = true.
Proof.
  intros Hn. pose proof threshold_checked as Hall.
  rewrite forallb_forall in Hall. apply Hall.
  unfold checked_counts. apply In_count_from. lia.
Qed.

Lemma sixty_percent_test (n k : Z) :
  0 <= n <= 10000 ->
  Py.int_gt_float k (Py.float_mul (Py.float_of_int n) Py.f0_6)
  = (3 * n <? 5 * k).
Proof.
  intros Hn. pose proof (threshold_at_count n Hn) as Hthreshold.
  unfold threshold_at in Hthreshold. cbv zeta in Hthreshold.
  apply andb_true_iff in Hthreshold. destruct Hthreshold as [Hbelow Habove].
  apply negb_true_iff in Hbelow.
  pose proof (Z.div_mod (3 * n) 5 ltac:(lia)) as Hdiv.
  pose proof (Z.mod_pos_bound (3 * n) 5 ltac:(lia)) as Hmod.
  destruct (Z.ltb_spec (3 * n) (5 * k)) as [Hlt | Hge].
  - apply (int_gt_float_monotone _ (3 * n / 5 + 1)); [lia | assumption].
  - destruct (Py.int_gt_float k _) eqn:Hk; [| reflexivity].
    rewrite (int_gt_float_monotone _ k (3 * n / 5)) in Hbelow;
      [discriminate Hbelow | lia | assumption].
Qed.

(** X20.  For a memory of up to 10000 interactions the float test of
    the dependency check is the exact one: apart from the two flags, a
    dependency is found when the count is above 10 and the requests that
    say "shortcut" or "write" are strictly more than three fifths of the
    count.  Exactly 60 percent is not enough, and no rounding of
    [count * 0.6] moves the bound. *)
Theorem dependency_check_is_exact (intent : Intent) (m : UserMemory) :
  0 <= interaction_count m <= 10000 ->
  EthicalGuardian._check_dependency intent (Some m)
  = (Py.mem "repetitive_dependency" (ethical_flags intent)
     || (10 <? interaction_count m)
        && (3 * interaction_count m <? 5 * EthicalGuardian.shortcut_pattern m)
     || Py.mem "potential_dependency_creation" (ethical_flags intent)).
Proof.
  intros Hcount. unfold EthicalGuardian._check_dependency. cbv zeta.
  rewrite (sixty_percent_test _ _ Hcount).
  destruct (Py.mem "repetitive_dependency" _); [reflexivity |].
  now destruct (_ && _).
Qed.

Lemma dependency_check_is_exact_witness :
  EthicalGuardian._check_dependency plain_intent
    (Some (memory_with_shortcuts 9 15)) = false
  /\ EthicalGuardian._check_dependency plain_intent
       (Some (memory_with_shortcuts 10 15)) = true.
Proof.
  split.
  - rewrite (dependency_check_is_exact plain_intent
               (memory_with_shortcuts 9 15)); [reflexivity |].
    cbn. lia.
  - rewrite (dependency_check_is_exact plain_intent
               (memory_with_shortcuts 10 15)); [reflexivity |].
    cbn. lia.
Defined.

Lemma shortcut_test_on_labels (label : string) :
  In label surface_labels ->
  Py.contains "shortcut" (Py.lower label)
  || Py.contains "write" (Py.lower label)
  = String.eqb "Shortcut-seeking complete solution" label.
Proof.
  unfold surface_labels. cbn [In]. intros H.
  repeat destruct H as [<- | H]; try reflexivity. destruct H.
Qed.

(** X21.  In the pipeline the history test of the dependency check
    counts the requests labelled "Shortcut-seeking complete solution"
    and no others: no label contains "write", and of the labels only
    that one contains "shortcut", so requests labelled "Request for
    complete solution" are not counted. *)
Theorem shortcut_pattern_counts_one_label (calls : list Call)
    (uid : string) :
  let m := Run.memory_of (fst (Run.run MVG.init calls)) uid in
  EthicalGuardian.shortcut_pattern m
  = Z.of_nat
      (length
         (List.filter (String.eqb "Shortcut-seeking complete solution")
            (request_history m))).
Proof.
  cbv zeta. unfold EthicalGuardian.shortcut_pattern. do 2 f_equal.
  apply filter_ext_in. intros label Hin.
  apply shortcut_test_on_labels.
  pose proof (run_request_history_labels calls MVG.init
                init_request_history_labels uid) as Hlabels.
  rewrite List.Forall_forall in Hlabels. now apply Hlabels.
Qed.

(** ** [re.IGNORECASE] on lower-cased text *)









(** ** Upper and lower case in the query *)

Lemma isspace_chr_lower (c : ascii) :
  Py.isspace (Py.chr_lower c) = Py.isspace c.
Proof. destruct c as [[] [] [] [] [] [] [] []]; reflexivity. Qed.

Lemma question_mark_chr_lower (c : ascii) :
  Ascii.eqb (Py.chr_lower c) "?" = Ascii.eqb c "?".
Proof. destruct c as [[] [] [] [] [] [] [] []]; reflexivity. Qed.

Lemma count_question_marks_lower (s : string) :
  Py.count_char "?" (Py.lower s) = Py.count_char "?" s.
Proof.
  induction s as [| c s IH]; [reflexivity |].
  cbn [Py.lower Py.count_char]. now rewrite question_mark_chr_lower, IH.
Qed.

Lemma split_from_lower (s : string) :
  forall w w' : string,
    (w = EmptyString <-> w' = EmptyString) ->
    length (Py.split_from w' (Py.lower s)) = length (Py.split_from w s).
Proof.
  induction s as [| c s IH]; intros w w' Hw.
  - cbn [Py.lower Py.split_from].
    destruct w, w'; try reflexivity;
      destruct Hw as [Hw1 Hw2]; (now discriminate Hw1 || now discriminate Hw2).
  - cbn [Py.lower Py.split_from]. rewrite isspace_chr_lower.
    destruct (Py.isspace c).
    + destruct w, w';
        try (destruct Hw as [Hw1 Hw2];
             (now discriminate Hw1 || now discriminate Hw2));
        cbn [length]; now rewrite (IH EmptyString EmptyString).
    + apply IH. split; discriminate.
Qed.

Lemma split_length_lower (s : string) :
  length (Py.split (Py.lower s)) = length (Py.split s).
Proof. now apply split_from_lower. Qed.

Section SameLowerCase.
Variables (query query' : string).
Hypothesis Hlower : Py.lower query = Py.lower query'.

Lemma analyze_same_lower_case (memory : option UserMemory) :
  IntentAnalyzer.analyze query memory = IntentAnalyzer.analyze query' memory.
Proof.
  unfold IntentAnalyzer.analyze, IntentAnalyzer._extract_surface_request,
    IntentAnalyzer._infer_deep_need, IntentAnalyzer._analyze_motivation,
    IntentAnalyzer._detect_ethical_flags.
  cbv zeta. now rewrite Hlower.
Qed.

Lemma effort_same_lower_case :
  CapabilityAssessor._assess_effort_shown query
  = CapabilityAssessor._assess_effort_shown query'.
Proof.
  unfold CapabilityAssessor._assess_effort_shown. cbv zeta.
  rewrite <- (split_length_lower query), <- (split_length_lower query').
  rewrite <- (count_question_marks_lower query),
    <- (count_question_marks_lower query').
  now rewrite Hlower.
Qed.

Lemma assess_same_lower_case (memory : option UserMemory) :
  CapabilityAssessor.assess query memory
  = CapabilityAssessor.assess query' memory.
Proof.
  unfold CapabilityAssessor.assess. cbv zeta.
  rewrite effort_same_lower_case.
  unfold CapabilityAssessor._assess_reasoning_quality,
    CapabilityAssessor._assess_self_awareness,
    CapabilityAssessor._identify_competencies.
  cbv zeta. now rewrite Hlower.
Qed.

End SameLowerCase.

(** X23.  The pipeline does not tell upper from lower case: two queries
    with the same lower-cased text get the same result in every state,
    and leave states that show every user the same memory (the query
    itself is kept in the conversation context only). *)
Theorem result_ignores_case (self : MVG.t) (query query' uid : string)
    (clock : Clock) :
  Py.lower query = Py.lower query' ->
  fst (MVG.process_request self query uid clock)
  = fst (MVG.process_request self query' uid clock)
  /\ same_view (snd (MVG.process_request self query uid clock))
       (snd (MVG.process_request self query' uid clock)).
Proof.
  intros Hlower.
  assert (Hintent :
    MVG.intent (MVG.stages self query uid clock)
    = MVG.intent (MVG.stages self query' uid clock))
    by (rewrite !stages_intent; now apply analyze_same_lower_case).
  assert (Hcapability :
    MVG.capability (MVG.stages self query uid clock)
    = MVG.capability (MVG.stages self query' uid clock))
    by (rewrite !stages_capability; now apply assess_same_lower_case).
  assert (Hverdict :
    MVG.ethical_verdict (MVG.stages self query uid clock)
    = MVG.ethical_verdict (MVG.stages self query' uid clock))
    by (rewrite !stages_ethical_verdict; now rewrite Hintent).
  assert (Hresponse :
    MVG.growth_response (MVG.stages self query uid clock)
    = MVG.growth_response (MVG.stages self query' uid clock))
    by (rewrite !stages_growth_response;
        now rewrite Hintent, Hcapability, Hverdict).
  assert (Hafter :
    forget_context (MVG.memory_after (MVG.stages self query uid clock))
    = forget_context (MVG.memory_after (MVG.stages self query' uid clock)))
    by (rewrite !stages_memory_after, !forget_log_interaction,
          !memory_after_designer_cases;
        now rewrite Hintent, Hcapability, Hverdict).
  destruct (forget_context_fields _ _ Hafter) as (Hcount & Htrend).
  split.
  - rewrite !result_of_stages. cbv zeta.
    now rewrite Hintent, Hcapability, Hverdict, Hresponse, Hcount, Htrend.
  - intros other. rewrite !process_request_memory.
    destruct (decide (uid = other)); [assumption | reflexivity].
Qed.

Lemma result_ignores_case_witness :
  fst (MVG.process_request MVG.init essay_query "student_001" sample_clock)
  = fst (MVG.process_request MVG.init
           "WRITE MY ESSAY ABOUT CLIMATE CHANGE. IT'S DUE TOMORROW AND I HAVEN'T STARTED."
           "student_001" sample_clock).
Proof.
  apply (result_ignores_case MVG.init essay_query
           "WRITE MY ESSAY ABOUT CLIMATE CHANGE. IT'S DUE TOMORROW AND I HAVEN'T STARTED."
           "student_001" sample_clock).
  reflexivity.
Defined.
